(** * RPA-DISCORD: the AdsPower authorization checker

    A shallow embedding of [adspower_rpa] (checker.py, client.py,
    scenarios.py, models.py) and the properties of its orchestration
    core: the response interpreter, the request envelope of the
    gateway, the lifecycle of the HTTP session and the bounded
    fan-out of [AuthorizationChecker.run]. *)

From Stdlib Require Import ZArith Bool Ascii String List Lia.
From Stdlib Require Import Floats.SpecFloat.
From stdpp Require Import base tactics option list strings pretty.

Local Open Scope string_scope.
Local Open Scope list_scope.

(** ** Python values

    The values that travel through the checker are what [json] decoding
    produces, plus [None].  A [float] is an IEEE-754 binary value
    ([spec_float]); an [int] is unbounded; a [dict] keeps its items in
    insertion order, so it is an association list read by key.  Text is
    modelled on the code points 0..255. *)

#[warnings="-register-all"]
Inductive pyvalue : Type :=
| PNone
| PBool (b : bool)
| PInt (n : Z)
| PFloat (f : spec_float)
| PStr (s : string)
| PList (items : list pyvalue)
| PDict (items : list (string * pyvalue)).

(** [dict] as used by the code: a list of items, first binding wins. *)
Abbreviation pydict := (list (string * pyvalue)).

(** [d.get(key)]: the value bound to [key], or nothing. *)
Fixpoint dict_lookup (key : string) (d : pydict) : option pyvalue :=
  match d with
  | [] => None
  | (k, v) :: rest => if String.eqb k key then Some v else dict_lookup key rest
  end.

(** [d.get(key)] with Python's default [None]. *)
Definition dict_get (key : string) (d : pydict) : pyvalue :=
  match dict_lookup key d with
  | Some v => v
  | None => PNone
  end.

(** [d.get(key, default)]. *)
Definition dict_get_default (key : string) (default : pyvalue) (d : pydict)
  : pyvalue :=
  match dict_lookup key d with
  | Some v => v
  | None => default
  end.

(** [type(v).__name__], as it appears in an [AttributeError]. *)
Definition type_name (v : pyvalue) : string :=
  match v with
  | PNone => "NoneType"
  | PBool _ => "bool"
  | PInt _ => "int"
  | PFloat _ => "float"
  | PStr _ => "str"
  | PList _ => "list"
  | PDict _ => "dict"
  end.

(** ** Exceptions

    A computation either returns or raises; of a raised exception the
    checker only ever uses [str(exc)]. *)

Inductive result (A : Type) : Type :=
| Returned (a : A)
| Raised (msg : string).
Arguments Returned {A} a.
Arguments Raised {A} msg.

#[global] Instance result_ret : MRet result := fun A a => Returned a.

#[global] Instance result_bind : MBind result := fun A B k r =>
  match r with
  | Returned a => k a
  | Raised msg => Raised msg
  end.

(** [obj.get(...)] on an arbitrary object: only a [dict] has the
    attribute, anything else raises [AttributeError]. *)
Definition attr_get_error (v : pyvalue) : string :=
  "'" +:+ type_name v +:+ "' object has no attribute 'get'".

Definition as_dict (v : pyvalue) : result pydict :=
  match v with
  | PDict d => Returned d
  | _ => Raised (attr_get_error v)
  end.

(** ** Text operations *)

(** [str.isspace] on one character of the range 0..255. *)
Definition isspace (c : ascii) : bool :=
  let n := nat_of_ascii c in
  (((9 <=? n) && (n <=? 13)) || ((28 <=? n) && (n <=? 32))
   || (n =? 133) || (n =? 160))%nat.

(** [str.lower] on one character of the range 0..255: the letters A-Z
    and the accented capitals 0xC0..0xDE (0xD7, the multiplication sign,
    has no case). *)
Definition lower_char (c : ascii) : ascii :=
  let n := nat_of_ascii c in
  if (((65 <=? n) && (n <=? 90))
      || ((192 <=? n) && (n <=? 222) && negb (n =? 215)))%nat
  then ascii_of_nat (n + 32) else c.

Fixpoint lower (s : string) : string :=
  match s with
  | EmptyString => EmptyString
  | String c rest => String (lower_char c) (lower rest)
  end.

Fixpoint lstrip (s : string) : string :=
  match s with
  | EmptyString => EmptyString
  | String c rest => if isspace c then lstrip rest else s
  end.

(** Dropping a trailing run of characters: a character is kept when
    something that is kept follows it, or when it is not one of the
    characters to drop. *)
Fixpoint rstrip_chars (drop : ascii -> bool) (s : string) : string :=
  match s with
  | EmptyString => EmptyString
  | String c rest =>
      match rstrip_chars drop rest with
      | EmptyString => if drop c then EmptyString else String c EmptyString
      | kept => String c kept
      end
  end.

(** [s.rstrip()] and [s.strip()] without arguments drop white space. *)
Definition rstrip (s : string) : string := rstrip_chars isspace s.

Definition strip (s : string) : string := rstrip (lstrip s).

(** Text made of white space only, and text that neither starts nor
    ends with white space. *)
Fixpoint all_space (s : string) : bool :=
  match s with
  | EmptyString => true
  | String c rest => isspace c && all_space rest
  end.

Fixpoint last_char (s : string) : option ascii :=
  match s with
  | EmptyString => None
  | String c EmptyString => Some c
  | String _ rest => last_char rest
  end.

Definition starts_clean (s : string) : Prop :=
  match s with
  | EmptyString => True
  | String c _ => isspace c = false
  end.

Definition ends_clean (s : string) : Prop :=
  match last_char s with
  | None => True
  | Some c => isspace c = false
  end.

(** Truth value of a [str]: empty is false. *)
Definition str_truthy (s : string) : bool :=
  match s with
  | EmptyString => false
  | String _ _ => true
  end.

(** Truth value of a [float]: both zeros are false, NaN is true. *)
Definition float_truthy (f : spec_float) : bool :=
  match f with
  | S754_zero _ => false
  | _ => true
  end.

(** ** [str] and [repr]

    [repr] of text follows CPython's [unicode_repr]: single quotes
    unless the text has a single and no double quote; the quote and the
    backslash are escaped, tab, newline and return are written as
    escapes, the other characters that are not printable as two
    hexadecimal digits. *)

Definition hex_digit (n : nat) : ascii :=
  match String.get n "0123456789abcdef" with
  | Some c => c
  | None => "0"%char
  end.

Definition printable (c : ascii) : bool :=
  let n := nat_of_ascii c in
  (((32 <=? n) && (n <=? 126)) || ((161 <=? n) && negb (n =? 173)))%nat.

Definition backslash : ascii := ascii_of_nat 92.
Definition single_quote : ascii := ascii_of_nat 39.
Definition double_quote : ascii := ascii_of_nat 34.

Definition repr_char (quote c : ascii) : string :=
  let n := nat_of_ascii c in
  if Ascii.eqb c quote || Ascii.eqb c backslash
  then String backslash (String c EmptyString)
  else if (n =? 9)%nat then String backslash "t"
  else if (n =? 10)%nat then String backslash "n"
  else if (n =? 13)%nat then String backslash "r"
  else if printable c then String c EmptyString
  else String backslash
         (String "x"%char
            (String (hex_digit (n / 16))
               (String (hex_digit (n mod 16)) EmptyString))).

Fixpoint contains_char (c : ascii) (s : string) : bool :=
  match s with
  | EmptyString => false
  | String c' rest => Ascii.eqb c c' || contains_char c rest
  end.

Fixpoint repr_chars (quote : ascii) (s : string) : string :=
  match s with
  | EmptyString => EmptyString
  | String c rest => repr_char quote c +:+ repr_chars quote rest
  end.

Definition str_repr (s : string) : string :=
  let quote :=
    if contains_char single_quote s && negb (contains_char double_quote s)
    then double_quote else single_quote in
  String quote (repr_chars quote s +:+ String quote EmptyString).

(** [", ".join(parts)]. *)
Fixpoint join (sep : string) (parts : list string) : string :=
  match parts with
  | [] => EmptyString
  | [part] => part
  | part :: rest => part +:+ sep +:+ join sep rest
  end.

(** The one part of the runtime that is left open: the shortest
    round-tripping decimal form that [repr] gives a [float]. *)
Class PyRuntime := { float_repr : spec_float -> string }.

Section Stringify.
Context `{PyRuntime}.

Fixpoint py_repr (v : pyvalue) : string :=
  match v with
  | PNone => "None"
  | PBool true => "True"
  | PBool false => "False"
  | PInt n => pretty n
  | PFloat f => float_repr f
  | PStr s => str_repr s
  | PList items => "[" +:+ join ", " (map py_repr items) +:+ "]"
  | PDict items =>
      "{" +:+ join ", "
               (map (fun '(k, v') => str_repr k +:+ ": " +:+ py_repr v') items)
          +:+ "}"
  end.

(** [str(v)]: text is itself, everything else prints as its [repr]. *)
Definition py_str (v : pyvalue) : string :=
  match v with
  | PStr s => s
  | _ => py_repr v
  end.
End Stringify.

(** ** config.py *)

Module Config.

(** [ProfileConfig]; the validator has already trimmed [id]. *)
Record ProfileConfig : Type := {
  id : string;
  label : option string
}.

End Config.

(** ** models.py *)

Module Models.

Record AuthorizationDetails : Type := {
  authorized : bool;
  display_name : option string;
  profile_serial : option string;
  raw_variables : pydict
}.

(** Time stamps are instants of a clock that counts from the start of
    the run. *)
Record ProfileCheckResult : Type := {
  profile_id : string;
  label : option string;
  success : bool;
  details : option AuthorizationDetails;
  error : option string;
  started_at : nat;
  finished_at : nat;
  raw_response : pyvalue
}.

End Models.

(** ** scenarios.py *)

Module Scenarios.

Record AutomationStep : Type := {
  type : string;
  config : pydict
}.

Definition to_dict (self : AutomationStep) : pyvalue :=
  PDict [("type", PStr (type self)); ("config", PDict (config self))].

Record DiscordAuthorizationScenario : Type := {
  steps : list AutomationStep
}.

Definition to_payload (self : DiscordAuthorizationScenario) : list pyvalue :=
  map to_dict (steps self).

End Scenarios.

(** ** client.py *)

Module Client.

(** The [httpx.AsyncClient] a gateway holds: what it was built from. *)
Record AsyncClient : Type := {
  base_url : string;
  headers : list (string * string);
  timeout : spec_float
}.

Record AdsPowerClient : Type := {
  _base_url : string;
  _api_key : option string;
  _timeout : spec_float;
  _client : option AsyncClient
}.

(** What a method does to the outside: sessions opened and disposed,
    requests sent. *)
Inductive effect : Type :=
| Opened (session : AsyncClient)
| Disposed (session : AsyncClient)
| Posted (path : string) (json : pyvalue).

(** The automation service: what becomes of a posted request once
    [post], [raise_for_status] and [json] have had their say. *)
Definition service : Type := string -> pyvalue -> result pyvalue.

Definition is_slash (c : ascii) : bool := Ascii.eqb c "/"%char.

Definition __init__ (base_url : string) (api_key : option string)
    (timeout_seconds : spec_float) : AdsPowerClient :=
  {| _base_url := rstrip_chars is_slash base_url;
     _api_key := api_key;
     _timeout := timeout_seconds;
     _client := None |}.

Definition with_client (self : AdsPowerClient) (c : option AsyncClient)
  : AdsPowerClient :=
  {| _base_url := _base_url self;
     _api_key := _api_key self;
     _timeout := _timeout self;
     _client := c |}.

Definition build_headers (api_key : option string) : list (string * string) :=
  ("Content-Type", "application/json")
    :: match api_key with
       | Some key =>
           if str_truthy key then [("Authorization", "Bearer " +:+ key)]
           else []
       | None => []
       end.

(** [_get_client]: the session, created on first use.  Neither this
    body nor that of [close] gives up control while it holds the lock,
    so the lock is free whenever a method is entered. *)
Definition _get_client (self : AdsPowerClient)
  : AdsPowerClient * list effect * AsyncClient :=
  match _client self with
  | Some session => (self, [], session)
  | None =>
      let session :=
        {| base_url := _base_url self;
           headers := build_headers (_api_key self);
           timeout := _timeout self |} in
      (with_client self (Some session), [Opened session], session)
  end.

(** [close]. *)
Definition close (self : AdsPowerClient) : AdsPowerClient * list effect :=
  match _client self with
  | Some session => (with_client self None, [Disposed session])
  | None => (self, [])
  end.

(** The request envelope built by [run_automation]. *)
Definition payload (profile_id : string) (steps : list pyvalue) : pyvalue :=
  PDict
    [("profile_id", PStr profile_id);
     ("steps", PList steps);
     ("options",
      PDict [("fail_on_selector_timeout", PBool true);
             ("capture_console", PBool true)])].

Definition automation_path : string := "/api/v1/automation/run".

(** [run_automation]: up to the point where the request is sent ... *)
Definition send_automation (self : AdsPowerClient) (profile_id : string)
    (steps : list pyvalue) : AdsPowerClient * list effect * pyvalue :=
  let '(self', opened, _) := _get_client self in
  let request := payload profile_id steps in
  (self', opened ++ [Posted automation_path request], request).

(** ... and the whole call against a service that answers at once. *)
Definition run_automation (svc : service) (self : AdsPowerClient)
    (profile_id : string) (steps : list pyvalue)
  : AdsPowerClient * list effect * result pyvalue :=
  let '(self', effects, request) := send_automation self profile_id steps in
  (self', effects, svc automation_path request).

(** [__aenter__] and [__aexit__]. *)
Definition __aenter__ (self : AdsPowerClient) : AdsPowerClient * list effect :=
  let '(self', effects, _) := _get_client self in (self', effects).

Definition __aexit__ (self : AdsPowerClient) : AdsPowerClient * list effect :=
  close self.

End Client.

(** ** The wire contract

    What it means for a request to be the envelope of a step list, for
    a given choice of key names. *)

Record wire_keys : Type := {
  key_profile : string;
  key_steps : string;
  key_options : string;
  key_fail_fast : string;
  key_console : string;
  key_kind : string;
  key_parameters : string
}.

(** The names the code puts on the wire. *)
Definition code_keys : wire_keys :=
  {| key_profile := "profile_id";
     key_steps := "steps";
     key_options := "options";
     key_fail_fast := "fail_on_selector_timeout";
     key_console := "capture_console";
     key_kind := "type";
     key_parameters := "config" |}.

(** The names of the specification's wire contract. *)
Definition spec_keys : wire_keys :=
  {| key_profile := "profileId";
     key_steps := "steps";
     key_options := "options";
     key_fail_fast := "failOnSelectorTimeout";
     key_console := "captureConsole";
     key_kind := "kind";
     key_parameters := "parameters" |}.

Definition step_mapping (keys : wire_keys) (step : Scenarios.AutomationStep)
    (item : pyvalue) : Prop :=
  exists d,
    item = PDict d
    /\ dict_lookup (key_kind keys) d = Some (PStr (Scenarios.type step))
    /\ dict_lookup (key_parameters keys) d
       = Some (PDict (Scenarios.config step)).

Definition enveloped (keys : wire_keys) (profile_id : string)
    (steps : list Scenarios.AutomationStep) (request : pyvalue) : Prop :=
  exists d items options,
    request = PDict d
    /\ dict_lookup (key_profile keys) d = Some (PStr profile_id)
    /\ dict_lookup (key_steps keys) d = Some (PList items)
    /\ Forall2 (step_mapping keys) steps items
    /\ dict_lookup (key_options keys) d = Some (PDict options)
    /\ dict_lookup (key_fail_fast keys) options = Some (PBool true)
    /\ dict_lookup (key_console keys) options = Some (PBool true).

(** ** checker.py *)

Module Checker.

(** *** The response interpreter *)

Definition _extract_variables (response : pyvalue) : result pydict :=
  top ← as_dict response;
  data ← as_dict (dict_get_default "data" (PDict []) top);
  match dict_get "variables" data with
  | PDict variables => mret variables
  | _ =>
      match dict_get "variables" top with
      | PDict variables => mret variables
      | _ => mret []
      end
  end.

Definition truthy_words : list string := ["1"; "true"; "yes"; "y"].

Definition _parse_bool (value : pyvalue) : bool :=
  match value with
  | PBool b => b
  | PStr s => existsb (String.eqb (lower (strip s))) truthy_words
  | PInt n => negb (n =? 0)%Z
  | PFloat f => float_truthy f
  | _ => false
  end.

Definition _coerce_optional_str `{PyRuntime} (value : pyvalue)
  : option string :=
  match value with
  | PNone => None
  | _ =>
      let text := strip (py_str value) in
      if str_truthy text then Some text else None
  end.

(** *** The checker *)

Record AuthorizationChecker : Type := {
  _client : Client.AdsPowerClient;
  _scenario : Scenarios.DiscordAuthorizationScenario;
  _profiles : list Config.ProfileConfig;
  _concurrency : Z
}.

Definition __init__ (client : Client.AdsPowerClient)
    (scenario : Scenarios.DiscordAuthorizationScenario)
    (profiles : list Config.ProfileConfig) (concurrency : Z)
  : AuthorizationChecker :=
  {| _client := client;
     _scenario := scenario;
     _profiles := profiles;
     _concurrency := Z.max 1 concurrency |}.

(** The variables of [_run_single] that the [try] block assigns. *)
Record attempt : Type := {
  raw_response : pyvalue;
  error : option string;
  details : option Models.AuthorizationDetails;
  success : bool
}.

Section Jobs.
Context `{PyRuntime}.

(** Lines 68-74: the typed details of a response. *)
Definition interpret (raw : pyvalue) : result Models.AuthorizationDetails :=
  variables ← _extract_variables raw;
  mret {| Models.authorized :=
            _parse_bool (dict_get "service_authorized" variables);
          Models.display_name :=
            _coerce_optional_str (dict_get "service_display_name" variables);
          Models.profile_serial :=
            _coerce_optional_str (dict_get "profile_serial" variables);
          Models.raw_variables := variables |}.

(** The [try] ... [except Exception] block, given what the awaited
    call came to.  [raw_response] is assigned as soon as the call
    returns, before the interpreter runs. *)
Definition attempted (answer : result pyvalue) : attempt :=
  match answer with
  | Raised msg =>
      {| raw_response := PDict []; error := Some msg;
         details := None; success := false |}
  | Returned raw =>
      match interpret raw with
      | Returned d =>
          {| raw_response := raw; error := None;
             details := Some d; success := true |}
      | Raised msg =>
          {| raw_response := raw; error := Some msg;
             details := None; success := false |}
      end
  end.

(** The [ProfileCheckResult] built at the end of [_run_single]. *)
Definition check_result (profile : Config.ProfileConfig)
    (started_at finished_at : nat) (a : attempt)
  : Models.ProfileCheckResult :=
  {| Models.profile_id := Config.id profile;
     Models.label := Config.label profile;
     Models.success := success a;
     Models.details := details a;
     Models.error := error a;
     Models.started_at := started_at;
     Models.finished_at := finished_at;
     Models.raw_response := raw_response a |}.

(** *** The event loop

    [run] creates one task per profile and gathers them.  A task
    gives up control in two places only: waiting for the semaphore
    and awaiting the answer to its request. *)
Inductive task : Type :=
| Created
| Acquiring (started_at : nat)
| Calling (started_at : nat) (request : pyvalue)
| Finished (r : Models.ProfileCheckResult).

Record world : Type := {
  clock : nat;
  permits : Z;
  gateway : Client.AdsPowerClient;
  effects : list Client.effect;
  tasks : list task
}.

(** One turn of the loop: after [elapsed] units of time, task
    [woken] is resumed. *)
Record event : Type := { woken : nat; elapsed : nat }.

(** How the automation service answers the request of the job at a
    given position. *)
Variable answers : nat -> Client.service.

Variable self : AuthorizationChecker.

(** [async with semaphore]: with a permit free the task takes it and
    goes on to send its request; otherwise it waits. *)
Definition enter (i : nat) (profile : Config.ProfileConfig)
    (started_at : nat) (w : world) : world :=
  if (0 <? permits w)%Z then
    let '(gateway', sent, request) :=
      Client.send_automation (gateway w) (Config.id profile)
        (Scenarios.to_payload (_scenario self)) in
    {| clock := clock w;
       permits := (permits w - 1)%Z;
       gateway := gateway';
       effects := effects w ++ sent;
       tasks := <[i := Calling started_at request]> (tasks w) |}
  else
    {| clock := clock w;
       permits := permits w;
       gateway := gateway w;
       effects := effects w;
       tasks := <[i := Acquiring started_at]> (tasks w) |}.

(** The request is answered: the rest of the [try] block, the
    release of the permit, [finished_at] and the result. *)
Definition leave (i : nat) (profile : Config.ProfileConfig)
    (started_at : nat) (request : pyvalue) (w : world) : world :=
  let a := attempted (answers i Client.automation_path request) in
  {| clock := clock w;
     permits := (permits w + 1)%Z;
     gateway := gateway w;
     effects := effects w;
     tasks :=
       <[i := Finished (check_result profile started_at (clock w) a)]>
         (tasks w) |}.

Definition tick (dt : nat) (w : world) : world :=
  {| clock := clock w + dt;
     permits := permits w;
     gateway := gateway w;
     effects := effects w;
     tasks := tasks w |}.

Definition resume (w : world) (e : event) : world :=
  let w := tick (elapsed e) w in
  let i := woken e in
  match tasks w !! i, _profiles self !! i with
  | Some Created, Some profile => enter i profile (clock w) w
  | Some (Acquiring started_at), Some profile =>
      enter i profile started_at w
  | Some (Calling started_at request), Some profile =>
      leave i profile started_at request w
  | _, _ => w
  end.

(** The state in which [run] awaits [gather]. *)
Definition start : world :=
  {| clock := 0;
     permits := _concurrency self;
     gateway := _client self;
     effects := [];
     tasks := map (fun _ => Created) (_profiles self) |}.

Definition finished (t : task) : option Models.ProfileCheckResult :=
  match t with
  | Finished r => Some r
  | _ => None
  end.

(** [asyncio.gather]: the results in the order of the tasks, once
    every task is done. *)
Definition gather (ts : list task) : option (list Models.ProfileCheckResult) :=
  mapM finished ts.

(** [run] under a schedule: what [gather] has to give when the loop
    has taken these turns. *)
Definition run (schedule : list event)
  : option (list Models.ProfileCheckResult) :=
  gather (tasks (fold_left resume schedule start)).

(** What the job at position [i] comes to, whenever it runs. *)
Definition outcome (i : nat) (profile : Config.ProfileConfig) : attempt :=
  attempted
    (answers i Client.automation_path
       (Client.payload (Config.id profile)
          (Scenarios.to_payload (_scenario self)))).
End Jobs.

End Checker.

(** A job fails when its request or the interpreter raises. *)
Definition fails `{PyRuntime} (answer : result pyvalue) : Prop :=
  match answer with
  | Raised _ => True
  | Returned raw => exists msg, Checker.interpret raw = Raised msg
  end.

(** Two results that differ in their time stamps at most. *)
Definition same_outcome (r r' : Models.ProfileCheckResult) : Prop :=
  Models.profile_id r = Models.profile_id r'
  /\ Models.label r = Models.label r'
  /\ Models.success r = Models.success r'
  /\ Models.details r = Models.details r'
  /\ Models.error r = Models.error r'
  /\ Models.raw_response r = Models.raw_response r'.

(** ** config.py: the validator of a profile id and the project *)

Module Validation.

(** [ProfileConfig._strip_id]. *)
Definition _strip_id (value : string) : result string :=
  let cleaned := strip value in
  if str_truthy cleaned then Returned cleaned
  else Raised "profile id cannot be empty".

End Validation.

Module Project.

Record AdsPowerSettings : Type := {
  base_url : string;
  api_key : option string;
  timeout_seconds : spec_float
}.

Record ServiceSelectors : Type := {
  login_indicators : list string;
  logout_indicators : list string;
  display_name : list string
}.

Record ServiceConfig : Type := {
  name : string;
  target_url : string;
  selectors : ServiceSelectors;
  login_path_blocklist : list string
}.

Record ProjectConfig : Type := {
  adspower : AdsPowerSettings;
  service : ServiceConfig;
  profiles : list Config.ProfileConfig;
  concurrency : Z
}.

(** [AuthorizationChecker.from_config]. *)
Definition from_config (client : Client.AdsPowerClient)
    (config : ProjectConfig)
    (scenario : Scenarios.DiscordAuthorizationScenario)
  : Checker.AuthorizationChecker :=
  Checker.__init__ client scenario (profiles config) (concurrency config).

End Project.

(** ** scenarios.py: the scenario builder

    The three scripts are text handed to the browser; the builder only
    places them, so they are left open here. *)

Module Builder.

Section Scripts.
Variable _build_login_detection_script : Project.ServiceConfig -> string.
Variable _profile_serial_script : string.
Variable _nickname_script : string.

Definition step (type : string) (config : pydict) : Scenarios.AutomationStep :=
  {| Scenarios.type := type; Scenarios.config := config |}.

Definition build_discord_authorization_scenario
    (service : Project.ServiceConfig) : Scenarios.DiscordAuthorizationScenario :=
  {| Scenarios.steps :=
       [] ++
       [ step "waitTime"
           [("timeoutType", PStr "fixedValue");
            ("timeout", PInt 2000);
            ("remark", PStr "stabilize environment")];
         step "newPage" [];
         step "closeOtherPage"
           [("keepCurrent", PBool true);
            ("remark", PStr "ensure single active tab")];
         step "gotoUrl"
           [("url", PStr (Project.target_url service));
            ("timeout", PInt 45000);
            ("waitUntil", PStr "load");
            ("remark",
             PStr ("open " +:+ Project.name service +:+ " target page"))];
         step "waitTime"
           [("timeoutType", PStr "randomInterval");
            ("timeoutMin", PInt 3000);
            ("timeoutMax", PInt 6000);
            ("remark", PStr "allow interface to settle")];
         step "javaScript"
           [("params", PList []);
            ("content", PStr (_build_login_detection_script service));
            ("variable", PStr "service_authorized");
            ("remark", PStr "detect authorization state")];
         step "javaScript"
           [("params", PList []);
            ("content", PStr _nickname_script);
            ("variable", PStr "service_display_name");
            ("remark", PStr "capture display name")];
         step "javaScript"
           [("params", PList []);
            ("content", PStr _profile_serial_script);
            ("variable", PStr "profile_serial");
            ("remark", PStr "detect profile serial")];
         step "closeBrowser" [] ] |}.
End Scripts.

End Builder.

(** The variables a scenario asks the automation service to capture,
    and the addresses it opens. *)
Definition captured_variables
    (scenario : Scenarios.DiscordAuthorizationScenario) : list string :=
  flat_map
    (fun s =>
       match dict_lookup "variable" (Scenarios.config s) with
       | Some (PStr v) => [v]
       | _ => []
       end)
    (Scenarios.steps scenario).

Definition opened_urls
    (scenario : Scenarios.DiscordAuthorizationScenario) : list pyvalue :=
  flat_map
    (fun s =>
       if String.eqb (Scenarios.type s) "gotoUrl"
       then match dict_lookup "url" (Scenarios.config s) with
            | Some v => [v]
            | None => []
            end
       else [])
    (Scenarios.steps scenario).

(** ** cli.py *)

Module Cli.

(** [value or default] on optional text: [None] and the empty text
    both give way to the default. *)
Definition py_or (value : option string) (default : string) : string :=
  match value with
  | Some s => if str_truthy s then s else default
  | None => default
  end.

Definition columns : list string :=
  ["Profile ID"; "Label"; "Authorized"; "Display name"; "Error"].

(** The cells that [_render_results] adds for one result. *)
Definition row (result : Models.ProfileCheckResult) : list string :=
  let authorized :=
    match Models.details result with
    | Some d => Some (if Models.authorized d then "Yes" else "No")
    | None => None
    end in
  let display_name :=
    match Models.details result with
    | Some d => Some (py_or (Models.display_name d) "")
    | None => None
    end in
  [Models.profile_id result;
   py_or (Models.label result) "";
   py_or authorized (if Models.success result then "-" else "No");
   py_or display_name "";
   py_or (Models.error result) ""].

(** [_render_results]: the table that is printed. *)
Definition _render_results (results : list Models.ProfileCheckResult)
  : list string * list (list string) :=
  (columns, map row results).

Section Runner.
Context `{PyRuntime}.

(** [_runner] inside [check]: the client is entered, the checker is
    built around it and run, the results are rendered and the client
    is left.  It gives the table, if the loop got as far as [gather]
    returning, and everything done to the outside. *)
Definition _runner (answers : nat -> Client.service)
    (config : Project.ProjectConfig)
    (scenario : Scenarios.DiscordAuthorizationScenario)
    (schedule : list Checker.event)
  : option (list string * list (list string)) * list Client.effect :=
  let settings := Project.adspower config in
  let '(client, entered) :=
    Client.__aenter__
      (Client.__init__ (Project.base_url settings) (Project.api_key settings)
         (Project.timeout_seconds settings)) in
  let checker := Project.from_config client config scenario in
  let w := fold_left (Checker.resume answers checker) schedule
             (Checker.start checker) in
  match Checker.gather (Checker.tasks w) with
  | Some results =>
      let '(_, exited) := Client.__aexit__ (Checker.gateway w) in
      (Some (_render_results results),
       entered ++ Checker.effects w ++ exited)
  | None => (None, entered ++ Checker.effects w)
  end.
End Runner.

End Cli.

(** ** Observations on the event loop *)

(** The state of the loop after a schedule. *)
Definition state `{PyRuntime} (answers : nat -> Client.service)
    (self : Checker.AuthorizationChecker) (schedule : list Checker.event)
  : Checker.world :=
  fold_left (Checker.resume answers self) schedule (Checker.start self).

(** The requests posted and the sessions opened and disposed of, in
    order. *)
Definition posted (effects : list Client.effect) : list pyvalue :=
  flat_map
    (fun e => match e with Client.Posted _ json => [json] | _ => [] end)
    effects.

Definition opened (effects : list Client.effect) : list Client.AsyncClient :=
  flat_map
    (fun e => match e with Client.Opened s => [s] | _ => [] end)
    effects.

Definition disposed (effects : list Client.effect) : list Client.AsyncClient :=
  flat_map
    (fun e => match e with Client.Disposed s => [s] | _ => [] end)
    effects.

(** The session that [_get_client] opens for a client without one. *)
Definition session_for (c : Client.AdsPowerClient) : Client.AsyncClient :=
  {| Client.base_url := Client._base_url c;
     Client.headers := Client.build_headers (Client._api_key c);
     Client.timeout := Client._timeout c |}.


(** A task that has sent its request. *)
Definition started (t : Checker.task) : bool :=
  match t with
  | Checker.Calling _ _ | Checker.Finished _ => true
  | _ => false
  end.

Definition request_of (self : Checker.AuthorizationChecker)
    (t : Checker.task) (p : Config.ProfileConfig) : list pyvalue :=
  if started t
  then [Client.payload (Config.id p)
          (Scenarios.to_payload (Checker._scenario self))]
  else [].

Definition requested (self : Checker.AuthorizationChecker)
    (ts : list Checker.task) (ps : list Config.ProfileConfig) : list pyvalue :=
  concat (zip_with (request_of self) ts ps).

(** All characters of a text satisfy a test. *)
Fixpoint all_chars (test : ascii -> bool) (s : string) : bool :=
  match s with
  | EmptyString => true
  | String c rest => test c && all_chars test rest
  end.

(** ** Invariants of the event loop *)

Section Invariants.
Context `{PyRuntime}.
Variable answers : nat -> Client.service.
Variable self : Checker.AuthorizationChecker.

(** A result is settled for the job at position [i] when it is the
    result of that job's one attempt, stamped with two instants in
    order. *)
Definition settled (i : nat) (p : Config.ProfileConfig)
    (r : Models.ProfileCheckResult) : Prop :=
  exists s f, s <= f /\ r = Checker.check_result p s f (Checker.outcome answers self i p).

Definition task_inv (now i : nat) (p : Config.ProfileConfig)
    (t : Checker.task) : Prop :=
  match t with
  | Checker.Created => True
  | Checker.Acquiring s => s <= now
  | Checker.Calling s request =>
      s <= now
      /\ request = Client.payload (Config.id p)
                     (Scenarios.to_payload (Checker._scenario self))
  | Checker.Finished r =>
      exists s f, s <= f /\ f <= now
                  /\ r = Checker.check_result p s f (Checker.outcome answers self i p)
  end.

Definition world_inv (w : Checker.world) : Prop :=
  length (Checker.tasks w) = length (Checker._profiles self)
  /\ forall i t p,
       Checker.tasks w !! i = Some t -> Checker._profiles self !! i = Some p ->
       task_inv (Checker.clock w) i p t.

Definition total (f : Checker.task -> nat) (ts : list Checker.task) : nat :=
  foldr (fun t n => f t + n) 0 ts.

(** How many permits a task holds. *)
Definition holding (t : Checker.task) : nat :=
  match t with
  | Checker.Calling _ _ => 1
  | _ => 0
  end.

(** How many turns a task still needs at least. *)
Definition remaining (t : Checker.task) : nat :=
  match t with
  | Checker.Created | Checker.Acquiring _ => 2
  | Checker.Calling _ _ => 1
  | Checker.Finished _ => 0
  end.

(** The permits handed out and the permits left add up. *)
Definition permits_inv (w : Checker.world) : Prop :=
  (Checker.permits w + Z.of_nat (total holding (Checker.tasks w))
   = Checker._concurrency self)%Z.

(** A turn that takes no time. *)
Definition now (i : nat) : Checker.event :=
  {| Checker.woken := i; Checker.elapsed := 0 |}.

End Invariants.

(** The requests posted so far are those of the tasks that have sent
    theirs. *)
Definition requests_inv `{PyRuntime} (answers : nat -> Client.service)
    (self : Checker.AuthorizationChecker) (w : Checker.world) : Prop :=
  world_inv answers self w
  /\ Permutation (posted (Checker.effects w))
       (requested self (Checker.tasks w) (Checker._profiles self)).

(** ** Fixtures for the worked instances *)

(** A runtime for values that hold no float. *)
Definition plain_runtime : PyRuntime := {| float_repr := fun _ => "nan" |}.

Section Fixtures.
#[local] Existing Instance plain_runtime.

Definition alice : Config.ProfileConfig :=
  {| Config.id := "k1"; Config.label := Some "Alice" |}.
Definition bob : Config.ProfileConfig :=
  {| Config.id := "k2"; Config.label := None |}.
Definition carol : Config.ProfileConfig :=
  {| Config.id := "k3"; Config.label := Some "Carol" |}.

Definition open_page : Scenarios.DiscordAuthorizationScenario :=
  {| Scenarios.steps :=
       [ {| Scenarios.type := "newPage"; Scenarios.config := [] |};
         {| Scenarios.type := "closeBrowser"; Scenarios.config := [] |} ] |}.

Definition local_client : Client.AdsPowerClient :=
  Client.__init__ "http://local.adspower.net:50325/" None
    (S754_finite false 15 1).

(** A service that reports every profile as logged in as Bob. *)
Definition logged_in : pyvalue :=
  PDict
    [("data",
      PDict
        [("variables",
          PDict [("service_authorized", PStr "true");
                 ("service_display_name", PStr " Bob ")])])].

Definition always_bob : nat -> Client.service :=
  fun _ _ _ => Returned logged_in.

(** The same service, timing out without a message. *)
Definition always_timeout : nat -> Client.service :=
  fun _ _ _ => Raised "".

(** The same service, failing for the job at one position. *)
Definition failing_at (k : nat) : nat -> Client.service :=
  fun i _ _ => if Nat.eqb i k then Raised "connection refused"
               else Returned logged_in.

Definition at_ (i dt : nat) : Checker.event :=
  {| Checker.woken := i; Checker.elapsed := dt |}.

(** Three profiles under the limit 2, first with a service that always
    answers, then with one that refuses the second job. *)
Definition three : Checker.AuthorizationChecker :=
  Checker.__init__ local_client open_page [alice; bob; carol] 2.

Definition calm_schedule : list Checker.event :=
  [at_ 0 0; at_ 1 0; at_ 2 0; at_ 0 4; at_ 1 1; at_ 2 0; at_ 2 4].

Definition calm_results : list Models.ProfileCheckResult :=
  [Checker.check_result alice 0 4 (Checker.attempted (Returned logged_in));
   Checker.check_result bob 0 5 (Checker.attempted (Returned logged_in));
   Checker.check_result carol 0 9 (Checker.attempted (Returned logged_in))].

Definition rough_schedule : list Checker.event :=
  [at_ 0 0; at_ 1 0; at_ 2 0; at_ 1 3; at_ 2 0; at_ 0 4; at_ 2 9].

Definition rough_results : list Models.ProfileCheckResult :=
  [Checker.check_result alice 0 7 (Checker.attempted (Returned logged_in));
   Checker.check_result bob 0 3
     (Checker.attempted (Raised "connection refused"));
   Checker.check_result carol 0 16 (Checker.attempted (Returned logged_in))].

End Fixtures.

(** * Properties *)

(** ** The event loop: what every schedule preserves *)

Section Loop.
Context `{PyRuntime}.
Variable answers : nat -> Client.service.
Variable self : Checker.AuthorizationChecker.

Local Abbreviation profiles := (Checker._profiles self).
Local Abbreviation outcome := (Checker.outcome answers self).
Local Abbreviation settled := (settled answers self).
Local Abbreviation task_inv := (task_inv answers self).
Local Abbreviation world_inv := (world_inv answers self).

Lemma task_inv_later now now' i p t :
  now <= now' -> task_inv now i p t -> task_inv now' i p t.
Proof.
  intros Hle. destruct t as [|s|s request|r]; simpl.
  - trivial.
  - lia.
  - intros [Hs Hreq]. split; [lia | exact Hreq].
  - intros (s & f & Hsf & Hf & Hr). exists s, f. repeat split; [lia | lia | exact Hr].
Qed.

Lemma send_automation_request g profile_id steps :
  (Client.send_automation g profile_id steps).2
  = Client.payload profile_id steps.
Proof.
  unfold Client.send_automation, Client._get_client.
  destruct (Client._client g); reflexivity.
Qed.

Lemma start_inv : world_inv (Checker.start self).
Proof.
  split; simpl.
  - apply length_map.
  - intros i t p Ht _. rewrite list_lookup_fmap in Ht.
    destruct (profiles !! i); simpl in Ht; [|discriminate].
    injection Ht as <-. exact I.
Qed.

Lemma tick_inv dt w : world_inv w -> world_inv (Checker.tick dt w).
Proof.
  intros [Hlen Hts]. split; simpl; [exact Hlen|].
  intros i t p Ht Hp. apply task_inv_later with (now := Checker.clock w).
  - lia.
  - eauto.
Qed.

(** Replacing the task at one position by one that satisfies the
    invariant there. *)
Lemma insert_inv w w' i t' :
  world_inv w ->
  Checker.clock w' = Checker.clock w ->
  Checker.tasks w' = <[i := t']> (Checker.tasks w) ->
  (forall p, profiles !! i = Some p -> task_inv (Checker.clock w) i p t') ->
  world_inv w'.
Proof.
  intros [Hlen Hts] Hclock Htasks Ht'. split.
  - rewrite Htasks, length_insert. exact Hlen.
  - intros j t p Hj Hp. rewrite Hclock. rewrite Htasks in Hj.
    destruct (decide (i = j)) as [->|Hne].
    + rewrite list_lookup_insert_eq in Hj.
      * injection Hj as <-. auto.
      * rewrite Hlen. eapply lookup_lt_Some; eauto.
    + rewrite list_lookup_insert_ne in Hj by exact Hne. eauto.
Qed.

Lemma enter_tasks i p s w :
  Checker.clock (Checker.enter self i p s w) = Checker.clock w
  /\ exists t',
       Checker.tasks (Checker.enter self i p s w)
       = <[i := t']> (Checker.tasks w)
       /\ (t' = Checker.Acquiring s
           \/ t' = Checker.Calling s
                     (Client.payload (Config.id p)
                        (Scenarios.to_payload (Checker._scenario self)))).
Proof.
  unfold Checker.enter. destruct (0 <? Checker.permits w)%Z.
  - pose proof (send_automation_request (Checker.gateway w) (Config.id p)
                  (Scenarios.to_payload (Checker._scenario self))) as Hreq.
    destruct (Client.send_automation _ _ _) as [[g' sent] request].
    simpl in *. subst request. split; [reflexivity|].
    eexists; split; [reflexivity | right; reflexivity].
  - simpl. split; [reflexivity|].
    eexists; split; [reflexivity | left; reflexivity].
Qed.

Lemma enter_inv i p s w :
  profiles !! i = Some p -> s <= Checker.clock w ->
  world_inv w -> world_inv (Checker.enter self i p s w).
Proof.
  intros Hp Hs Hw.
  destruct (enter_tasks i p s w) as (Hclock & t' & Htasks & Ht').
  eapply insert_inv; eauto.
  intros p' Hp'. rewrite Hp in Hp'. injection Hp' as <-.
  destruct Ht' as [-> | ->]; simpl; auto.
Qed.

Lemma leave_inv i p s w :
  profiles !! i = Some p -> s <= Checker.clock w ->
  world_inv w ->
  world_inv
    (Checker.leave answers i p s
       (Client.payload (Config.id p)
          (Scenarios.to_payload (Checker._scenario self))) w).
Proof.
  intros Hp Hs Hw. eapply insert_inv; eauto; try reflexivity.
  intros p' Hp'. rewrite Hp in Hp'. injection Hp' as <-.
  simpl. exists s, (Checker.clock w). repeat split; auto.
Qed.

Lemma resume_inv w e :
  world_inv w -> world_inv (Checker.resume answers self w e).
Proof.
  intros Hw. apply (tick_inv (Checker.elapsed e)) in Hw.
  unfold Checker.resume.
  set (w1 := Checker.tick (Checker.elapsed e) w) in *.
  destruct (Checker.tasks w1 !! Checker.woken e) as [t|] eqn:Ht; [|exact Hw].
  destruct (profiles !! Checker.woken e) as [p|] eqn:Hp;
    [|destruct t; exact Hw].
  pose proof (proj2 Hw _ _ _ Ht Hp) as Hinv.
  destruct t as [|s|s request|r]; simpl in Hinv.
  - apply enter_inv; auto.
  - apply enter_inv; auto.
  - destruct Hinv as [Hs ->]. apply leave_inv; auto.
  - exact Hw.
Qed.

Lemma schedule_inv schedule w :
  world_inv w -> world_inv (fold_left (Checker.resume answers self) schedule w).
Proof.
  revert w. induction schedule as [|e schedule IH]; intros w Hw; simpl.
  - exact Hw.
  - apply IH, resume_inv, Hw.
Qed.

(** What [gather] returns is, position by position, the settled result
    of the job there. *)
Lemma run_settled schedule rs :
  Checker.run answers self schedule = Some rs ->
  length rs = length profiles
  /\ forall i p, profiles !! i = Some p ->
                 exists r, rs !! i = Some r /\ settled i p r.
Proof.
  unfold Checker.run, Checker.gather. intros Hrun.
  apply mapM_Some in Hrun.
  pose proof (schedule_inv schedule _ start_inv) as [Hlen Hts].
  set (w := fold_left _ _ _) in *.
  split.
  - rewrite <- Hlen. symmetry. eapply Forall2_length; eauto.
  - intros i p Hp.
    destruct (lookup_lt_is_Some_2 (Checker.tasks w) i) as [t Ht].
    { rewrite Hlen. eapply lookup_lt_Some; eauto. }
    destruct (Forall2_lookup_l _ _ _ _ _ Hrun Ht) as (r & Hr & Hfin).
    exists r. split; [exact Hr|].
    destruct t; simpl in Hfin; try discriminate.
    injection Hfin as ->.
    destruct (Hts _ _ _ Ht Hp) as (s & f & Hsf & _ & Heq).
    exists s, f. split; auto.
Qed.
End Loop.

(** ** The event loop: no schedule can get stuck *)

Section Progress.
Context `{PyRuntime}.
Variable answers : nat -> Client.service.
Variable self : Checker.AuthorizationChecker.
Hypothesis concurrency_positive : (1 <= Checker._concurrency self)%Z.

Local Abbreviation profiles := (Checker._profiles self).
Local Abbreviation resume := (Checker.resume answers self).
Local Abbreviation permits_inv := (permits_inv self).

Lemma total_insert f ts i t t' :
  ts !! i = Some t -> total f (<[i := t']> ts) + f t = total f ts + f t'.
Proof.
  revert i. induction ts as [|t0 ts IH]; intros [|i] Hi; simpl in *;
    try discriminate.
  - injection Hi as ->. lia.
  - specialize (IH _ Hi). lia.
Qed.

Lemma total_positive f ts :
  0 < total f ts -> exists i t, ts !! i = Some t /\ 0 < f t.
Proof.
  induction ts as [|t0 ts IH]; simpl; [lia|]. intros Hpos.
  destruct (f t0) as [|k] eqn:Hf.
  - destruct IH as (i & t & Hi & Ht); [lia|]. exists (S i), t. auto.
  - exists 0, t0. simpl. split; [reflexivity | lia].
Qed.

Lemma gather_pending ts :
  Checker.gather ts = None -> 0 < total remaining ts.
Proof.
  unfold Checker.gather.
  induction ts as [|t ts IH]; simpl; [discriminate|].
  destruct t; simpl; try lia.
  destruct (mapM Checker.finished ts); simpl; [discriminate|].
  intros _. specialize (IH eq_refl). lia.
Qed.

Lemma start_permits : permits_inv (Checker.start self).
Proof.
  unfold permits_inv. simpl.
  assert (total holding (map (fun _ => Checker.Created) profiles) = 0) as ->.
  { induction profiles; simpl; auto. }
  lia.
Qed.

Lemma enter_permits i p s t w :
  Checker.tasks w !! i = Some t -> holding t = 0 ->
  permits_inv w -> permits_inv (Checker.enter self i p s w).
Proof.
  unfold permits_inv, Checker.enter. intros Hi Ht Hw.
  destruct (0 <? Checker.permits w)%Z.
  - destruct (Client.send_automation _ _ _) as [[g' sent] request]. simpl.
    pose proof (total_insert holding _ _ _ (Checker.Calling s request) Hi).
    simpl in *. lia.
  - simpl.
    pose proof (total_insert holding _ _ _ (Checker.Acquiring s) Hi).
    simpl in *. lia.
Qed.

Lemma leave_permits i p s request w :
  Checker.tasks w !! i = Some (Checker.Calling s request) ->
  permits_inv w -> permits_inv (Checker.leave answers i p s request w).
Proof.
  unfold permits_inv, Checker.leave. intros Hi Hw. simpl.
  pose proof (total_insert holding _ _ _
                (Checker.Finished
                   (Checker.check_result p s (Checker.clock w)
                      (Checker.attempted
                         (answers i Client.automation_path request)))) Hi).
  simpl in *. lia.
Qed.

Lemma resume_permits w e : permits_inv w -> permits_inv (resume w e).
Proof.
  intros Hw. unfold Checker.resume.
  set (w1 := Checker.tick (Checker.elapsed e) w).
  assert (permits_inv w1) as Hw1 by exact Hw.
  destruct (Checker.tasks w1 !! Checker.woken e) as [t|] eqn:Ht; [|exact Hw1].
  destruct (profiles !! Checker.woken e) as [p|] eqn:Hp;
    [|destruct t; exact Hw1].
  destruct t as [|s|s request|r].
  - eapply enter_permits; eauto.
  - eapply enter_permits; eauto.
  - eapply leave_permits; eauto.
  - exact Hw1.
Qed.

Lemma schedule_permits schedule w :
  permits_inv w -> permits_inv (fold_left resume schedule w).
Proof.
  revert w. induction schedule as [|e schedule IH]; intros w Hw; simpl.
  - exact Hw.
  - apply IH, resume_permits, Hw.
Qed.

(** While a task is pending, some turn of the loop brings one task
    closer to its end. *)
Lemma pending_progress w :
  length (Checker.tasks w) = length profiles ->
  permits_inv w ->
  0 < total remaining (Checker.tasks w) ->
  exists e,
    total remaining (Checker.tasks (resume w e))
    < total remaining (Checker.tasks w).
Proof.
  intros Hlen Hperm Hpending.
  assert (forall i t, Checker.tasks w !! i = Some t ->
                      exists p, profiles !! i = Some p) as Hprofile.
  { intros i t Hi. apply lookup_lt_is_Some_2. rewrite <- Hlen.
    eapply lookup_lt_Some; eauto. }
  destruct (Nat.eq_dec (total holding (Checker.tasks w)) 0) as [Hnone|Hsome].
  - (* no request in flight: every permit is free *)
    destruct (total_positive _ _ Hpending) as (i & t & Hi & Ht).
    destruct (Hprofile _ _ Hi) as [p Hp].
    assert ((0 <? Checker.permits w)%Z = true) as Hfree.
    { unfold permits_inv in Hperm. apply Z.ltb_lt. lia. }
    assert (holding t = 0) as Hhold.
    { destruct t; simpl; auto.
      pose proof (total_insert holding _ _ _ Checker.Created Hi) as Hins.
      simpl in Hins. lia. }
    exists (now i). unfold Checker.resume. simpl.
    assert (forall s,
               total remaining
                 (Checker.tasks
                    (Checker.enter self i p s
                       (Checker.tick 0 w)))
               < total remaining (Checker.tasks w)) as Henter.
    { intros s. unfold Checker.enter. simpl. rewrite Hfree.
      destruct (Client.send_automation _ _ _) as [[g' sent] request]. simpl.
      pose proof (total_insert remaining _ _ _
                    (Checker.Calling s request) Hi) as Hins.
      destruct t; simpl in *; try discriminate; lia. }
    rewrite Hi, Hp.
    destruct t; simpl in *; try discriminate; try lia; apply Henter.
  - (* a request is in flight: let it be answered *)
    destruct (total_positive holding (Checker.tasks w)) as (i & t & Hi & Ht);
      [lia|].
    destruct (Hprofile _ _ Hi) as [p Hp].
    destruct t as [| |s request|]; simpl in Ht; try lia.
    exists (now i). unfold Checker.resume. simpl. rewrite Hi, Hp.
    unfold Checker.leave. simpl.
    pose proof (total_insert remaining _ _ _
                  (Checker.Finished
                     (Checker.check_result p s (Checker.clock w + 0)
                        (Checker.attempted
                           (answers i Client.automation_path request)))) Hi)
      as Hins.
    simpl in *. lia.
Qed.

Lemma resume_length w e :
  length (Checker.tasks (resume w e)) = length (Checker.tasks w).
Proof.
  unfold Checker.resume.
  destruct (Checker.tasks _ !! _) as [t|]; [|reflexivity].
  destruct (profiles !! _) as [p|]; [|destruct t; reflexivity].
  destruct t; try reflexivity; unfold Checker.enter, Checker.leave;
    try (destruct (0 <? _)%Z;
         [destruct (Client.send_automation _ _ _) as [[g' sent] request]|]);
    simpl; apply length_insert.
Qed.

Lemma pending_completion n w :
  total remaining (Checker.tasks w) <= n ->
  length (Checker.tasks w) = length profiles ->
  permits_inv w ->
  exists more rs,
    Checker.gather (Checker.tasks (fold_left resume more w)) = Some rs.
Proof.
  revert w. induction n as [|n IH]; intros w Hn Hlen Hperm.
  - destruct (Checker.gather (Checker.tasks w)) as [rs|] eqn:Hg.
    + exists [], rs. exact Hg.
    + apply gather_pending in Hg. lia.
  - destruct (Checker.gather (Checker.tasks w)) as [rs|] eqn:Hg.
    + exists [], rs. exact Hg.
    + apply gather_pending in Hg.
      destruct (pending_progress w Hlen Hperm Hg) as [e He].
      destruct (IH (resume w e)) as (more & rs & Hrs).
      * lia.
      * rewrite resume_length. exact Hlen.
      * apply resume_permits, Hperm.
      * exists (e :: more), rs. exact Hrs.
Qed.

(** Whatever turns the loop has taken, it can go on to the point
    where [gather] returns. *)
Lemma run_completes schedule :
  exists more rs, Checker.run answers self (schedule ++ more) = Some rs.
Proof.
  unfold Checker.run.
  set (w := fold_left resume schedule (Checker.start self)).
  destruct (pending_completion (total remaining (Checker.tasks w)) w)
    as (more & rs & Hrs).
  - lia.
  - subst w. destruct (schedule_inv answers self schedule _
                         (start_inv answers self)) as [Hlen _].
    exact Hlen.
  - apply schedule_permits, start_permits.
  - exists more, rs. rewrite fold_left_app. exact Hrs.
Qed.
End Progress.

(** ** Text: trimming and lower case *)

Section Text.

#[local] Arguments String.append !s1 s2 : simpl nomatch.

Lemma lstrip_split s :
  exists l, s = l +:+ lstrip s /\ all_space l = true.
Proof.
  induction s as [|c s IH]; simpl.
  - exists "". auto.
  - destruct (isspace c) eqn:Hc.
    + destruct IH as (l & Hl & Hsp). exists (String c l). simpl.
      rewrite Hc, Hsp. split; [congruence | reflexivity].
    + exists "". auto.
Qed.

Lemma lstrip_clean s : starts_clean (lstrip s).
Proof.
  induction s as [|c s IH]; simpl; [exact I|].
  destruct (isspace c) eqn:Hc; [exact IH | exact Hc].
Qed.

Lemma rstrip_split s :
  exists r, s = rstrip s +:+ r /\ all_space r = true.
Proof.
  unfold rstrip. induction s as [|c s IH]; simpl.
  - exists "". auto.
  - destruct IH as (r & Hr & Hsp).
    destruct (rstrip_chars isspace s) as [|c' kept] eqn:Hk.
    + destruct (isspace c) eqn:Hc.
      * exists (String c r). simpl in *. rewrite Hc, Hsp.
        split; [congruence | reflexivity].
      * exists r. simpl in *. split; [congruence | exact Hsp].
    + exists r. simpl in *. split; [congruence | exact Hsp].
Qed.

Lemma rstrip_clean s : ends_clean (rstrip s).
Proof.
  unfold rstrip, ends_clean. induction s as [|c s IH]; simpl; [exact I|].
  destruct (rstrip_chars isspace s) as [|c' kept] eqn:Hk.
  - destruct (isspace c) eqn:Hc; simpl; [exact I | exact Hc].
  - simpl in *. exact IH.
Qed.

Lemma rstrip_starts s : starts_clean s -> starts_clean (rstrip s).
Proof.
  unfold rstrip. destruct s as [|c s]; simpl; [auto|]. intros Hc.
  destruct (rstrip_chars isspace s); [rewrite Hc|]; exact Hc.
Qed.

(** [strip] cuts a run of white space off either end and leaves a
    text that neither starts nor ends with white space. *)
Lemma strip_split s :
  exists l r,
    s = l +:+ strip s +:+ r
    /\ all_space l = true /\ all_space r = true
    /\ starts_clean (strip s) /\ ends_clean (strip s).
Proof.
  destruct (lstrip_split s) as (l & Hl & Hlsp).
  destruct (rstrip_split (lstrip s)) as (r & Hr & Hrsp).
  exists l, r. unfold strip. repeat split; auto.
  - rewrite <- Hr. exact Hl.
  - apply rstrip_starts, lstrip_clean.
  - apply rstrip_clean.
Qed.

Lemma lstrip_space l s : all_space l = true -> lstrip (l +:+ s) = lstrip s.
Proof.
  induction l as [|c l IH]; simpl; [reflexivity|].
  intros Hsp. apply andb_true_iff in Hsp as [Hc Hl]. rewrite Hc. auto.
Qed.

Lemma lstrip_all_space s : all_space s = true -> lstrip s = "".
Proof.
  induction s as [|c s IH]; simpl; [reflexivity|].
  intros Hsp. apply andb_true_iff in Hsp as [Hc Hl]. rewrite Hc. auto.
Qed.

Lemma lstrip_started s : starts_clean s -> lstrip s = s.
Proof. destruct s as [|c s]; simpl; [auto|]. intros ->. reflexivity. Qed.

Lemma rstrip_all_space s : all_space s = true -> rstrip s = "".
Proof.
  unfold rstrip. induction s as [|c s IH]; simpl; [reflexivity|].
  intros Hsp. apply andb_true_iff in Hsp as [Hc Hl].
  rewrite (IH Hl), Hc. reflexivity.
Qed.

Lemma rstrip_space s r : all_space r = true -> rstrip (s +:+ r) = rstrip s.
Proof.
  intros Hsp. induction s as [|c s IH]; simpl.
  - apply rstrip_all_space, Hsp.
  - unfold rstrip in *. simpl. rewrite IH. reflexivity.
Qed.

Lemma rstrip_ended s : ends_clean s -> rstrip s = s.
Proof.
  unfold rstrip, ends_clean. induction s as [|c s IH]; simpl; [auto|].
  destruct s as [|c' s'].
  - simpl. intros ->. reflexivity.
  - intros Hend. rewrite (IH Hend). reflexivity.
Qed.

(** ... and that text is the only one of the kind. *)
Lemma strip_unique l t r :
  all_space l = true -> all_space r = true ->
  starts_clean t -> ends_clean t ->
  strip (l +:+ t +:+ r) = t.
Proof.
  intros Hl Hr Hstart Hend. unfold strip. rewrite lstrip_space by exact Hl.
  destruct t as [|c t].
  - simpl. rewrite lstrip_all_space by exact Hr. reflexivity.
  - rewrite lstrip_started by exact Hstart.
    rewrite rstrip_space by exact Hr. apply rstrip_ended, Hend.
Qed.

Lemma strip_empty s : strip s = "" <-> all_space s = true.
Proof.
  split.
  - intros Hs. destruct (strip_split s) as (l & r & Heq & Hl & Hr & _).
    rewrite Hs in Heq. simpl in Heq. rewrite Heq. clear Heq.
    induction l as [|c l IH]; simpl in *; [exact Hr|].
    apply andb_true_iff in Hl as [Hc Hl]. rewrite Hc. auto.
  - intros Hs. unfold strip. rewrite lstrip_all_space by exact Hs.
    reflexivity.
Qed.

Lemma isspace_lower c : isspace (lower_char c) = isspace c.
Proof. destruct c as [[] [] [] [] [] [] [] []]; reflexivity. Qed.

Lemma lower_char_idem c : lower_char (lower_char c) = lower_char c.
Proof. destruct c as [[] [] [] [] [] [] [] []]; reflexivity. Qed.

Lemma lower_idem s : lower (lower s) = lower s.
Proof.
  induction s as [|c s IH]; simpl; [reflexivity|].
  rewrite lower_char_idem, IH. reflexivity.
Qed.

Lemma lstrip_lower s : lstrip (lower s) = lower (lstrip s).
Proof.
  induction s as [|c s IH]; simpl; [reflexivity|].
  rewrite isspace_lower. destruct (isspace c); [exact IH | reflexivity].
Qed.

Lemma rstrip_lower s : rstrip (lower s) = lower (rstrip s).
Proof.
  unfold rstrip. induction s as [|c s IH]; simpl; [reflexivity|].
  rewrite IH, isspace_lower.
  destruct (rstrip_chars isspace s); simpl; [|reflexivity].
  destruct (isspace c); reflexivity.
Qed.

Lemma strip_lower s : strip (lower s) = lower (strip s).
Proof. unfold strip. rewrite lstrip_lower, rstrip_lower. reflexivity. Qed.

End Text.

(** ** The response interpreter *)

Section Interpreter.

#[local] Arguments String.append !s1 s2 : simpl nomatch.

Lemma all_space_app l r :
  all_space (l +:+ r) = all_space l && all_space r.
Proof.
  induction l as [|c l IH]; simpl; [reflexivity|].
  rewrite IH. apply andb_assoc.
Qed.

Lemma append_assoc (a b c : string) : (a +:+ b) +:+ c = a +:+ (b +:+ c).
Proof. induction a as [|x a IH]; simpl; [reflexivity|]. rewrite IH. reflexivity. Qed.

(** White space around a text does not show after [strip]. *)
Lemma strip_padding l s r :
  all_space l = true -> all_space r = true ->
  strip (l +:+ s +:+ r) = strip s.
Proof.
  intros Hl Hr.
  destruct (strip_split s) as (l' & r' & Heq & Hl' & Hr' & Hstart & Hend).
  rewrite Heq at 1.
  replace (l +:+ (l' +:+ strip s +:+ r') +:+ r)
    with ((l +:+ l') +:+ strip s +:+ (r' +:+ r))
    by (rewrite !append_assoc; reflexivity).
  apply strip_unique; auto; rewrite all_space_app, ?Hl, ?Hl', ?Hr, ?Hr';
    reflexivity.
Qed.

Lemma parse_bool_text s :
  Checker._parse_bool (PStr s) = true
  <-> In (lower (strip s)) Checker.truthy_words.
Proof.
  unfold Checker._parse_bool. rewrite existsb_exists. split.
  - intros (w & Hin & Heq). apply String.eqb_eq in Heq. subst w. exact Hin.
  - intros Hin. exists (lower (strip s)). split; [exact Hin|].
    apply String.eqb_refl.
Qed.

(** What [_extract_variables] does with a response whose [data] is
    absent or a mapping: the nested variables, else the top-level
    ones, else none. *)
Lemma extract_variables_mapping_data top data :
  dict_get_default "data" (PDict []) top = PDict data ->
  Checker._extract_variables (PDict top)
  = Returned
      match dict_get "variables" data with
      | PDict variables => variables
      | _ =>
          match dict_get "variables" top with
          | PDict variables => variables
          | _ => []
          end
      end.
Proof.
  intros Hdata. unfold Checker._extract_variables. simpl. rewrite Hdata. simpl.
  destruct (dict_get "variables" data); try reflexivity;
    destruct (dict_get "variables" top); reflexivity.
Qed.

(** ... and with one whose [data] is anything else. *)
Lemma extract_variables_other_data top data :
  dict_lookup "data" top = Some data ->
  (forall d, data <> PDict d) ->
  Checker._extract_variables (PDict top) = Raised (attr_get_error data).
Proof.
  intros Hdata Hother. unfold Checker._extract_variables, dict_get_default.
  simpl. rewrite Hdata. destruct data; try reflexivity.
  exfalso. eapply Hother. reflexivity.
Qed.

Lemma interpret_error `{PyRuntime} raw msg :
  Checker.interpret raw = Raised msg -> msg <> "".
Proof.
  unfold Checker.interpret, Checker._extract_variables.
  destruct raw as [| | | | | |top]; simpl;
    try (intros [= <-]; discriminate).
  destruct (dict_get_default "data" (PDict []) top) as [| | | | | |data];
    simpl; try (intros [= <-]; discriminate).
  destruct (dict_get "variables" data); simpl; try discriminate;
    destruct (dict_get "variables" top); simpl; discriminate.
Qed.

End Interpreter.

(** C2 (as the code has it): a response whose [data] is not a mapping
    makes [_extract_variables] raise [AttributeError]; the top-level
    [variables] are not consulted, and no empty mapping is returned.
    The responses [{"data": None}] and
    [{"data": "busy", "variables": {"service_authorized": True}}] show
    it, while [{}] and [{"data": {}}] give the empty mapping. *)
Theorem extract_variables_raises_on_non_mapping_data :
  Checker._extract_variables (PDict [("data", PNone)])
  = Raised "'NoneType' object has no attribute 'get'"
  /\ Checker._extract_variables
       (PDict [("data", PStr "busy");
               ("variables", PDict [("service_authorized", PBool true)])])
     = Raised "'str' object has no attribute 'get'"
  /\ Checker._extract_variables (PDict []) = Returned []
  /\ Checker._extract_variables (PDict [("data", PDict [])]) = Returned [].
Proof. repeat split; reflexivity. Qed.

(** C6. [_parse_bool] is a function on all values: a boolean is
    returned as it is; text gives true exactly when, trimmed and in
    lower case, it is one of "1", "true", "yes", "y", so neither case
    nor surrounding white space matters; a number gives false exactly
    when it is zero; [None] and every other value give false. *)
Theorem parse_bool_total :
  (forall b, Checker._parse_bool (PBool b) = b)
  /\ (forall s, Checker._parse_bool (PStr s) = true
                <-> In (lower (strip s)) ["1"; "true"; "yes"; "y"])
  /\ (forall s, Checker._parse_bool (PStr (lower s))
                = Checker._parse_bool (PStr s))
  /\ (forall l s r, all_space l = true -> all_space r = true ->
                    Checker._parse_bool (PStr (l +:+ s +:+ r))
                    = Checker._parse_bool (PStr s))
  /\ (forall n, Checker._parse_bool (PInt n) = false <-> n = 0%Z)
  /\ (forall f, Checker._parse_bool (PFloat f) = false
                <-> exists sign, f = S754_zero sign)
  /\ Checker._parse_bool PNone = false
  /\ (forall items, Checker._parse_bool (PList items) = false)
  /\ (forall items, Checker._parse_bool (PDict items) = false).
Proof.
  repeat split; try reflexivity.
  - apply parse_bool_text.
  - apply parse_bool_text.
  - intros s. simpl. rewrite strip_lower, lower_idem. reflexivity.
  - intros l s r Hl Hr. simpl. rewrite strip_padding by assumption. reflexivity.
  - simpl. intros Hn. apply negb_false_iff, Z.eqb_eq in Hn. exact Hn.
  - intros ->. reflexivity.
  - destruct f; simpl; try discriminate. eauto.
  - intros [sign ->]. reflexivity.
Qed.

Lemma parse_bool_total_witness :
  In (lower (strip " YES ")) ["1"; "true"; "yes"; "y"]
  /\ Checker._parse_bool (PStr " YES ") = true.
Proof.
  split.
  - vm_compute. auto.
  - apply (proj1 (proj2 parse_bool_total) " YES "). vm_compute. auto.
Defined.

(** The values of the specification's examples. *)
Example parse_bool_examples :
  Checker._parse_bool PNone = false
  /\ Checker._parse_bool (PStr "YES") = true
  /\ Checker._parse_bool (PInt 0) = false
  /\ Checker._parse_bool (PFloat (S754_finite false 7 (-1))) = true
  /\ Checker._parse_bool (PStr "nope") = false.
Proof. repeat split; reflexivity. Qed.

(** C7. [_coerce_optional_str] gives nothing for [None]; any other
    value is turned into text, the white space at both ends is cut off,
    and what is left is returned unless it is empty.  So text of white
    space only gives nothing, and 42 gives "42". *)
Theorem coerce_optional_str_trimmed `{PyRuntime} :
  Checker._coerce_optional_str PNone = None
  /\ (forall value,
        exists l t r,
          py_str value = l +:+ t +:+ r
          /\ all_space l = true /\ all_space r = true
          /\ starts_clean t /\ ends_clean t
          /\ Checker._coerce_optional_str value
             = match value with
               | PNone => None
               | _ => if decide (t = "") then None else Some t
               end)
  /\ (forall s, Checker._coerce_optional_str (PStr s) = None
                <-> all_space s = true)
  /\ Checker._coerce_optional_str (PStr "   ") = None
  /\ Checker._coerce_optional_str (PInt 42) = Some "42".
Proof.
  split; [reflexivity|]. split; [|split; [|split; reflexivity]].
  - intros value.
    destruct (strip_split (py_str value))
      as (l & r & Heq & Hl & Hr & Hstart & Hend).
    exists l, (strip (py_str value)), r. repeat split; auto.
    assert (forall text, (if str_truthy text then Some text else None)
                         = if decide (text = "") then None else Some text)
      as Htruthy.
    { intros [|c text]; unfold str_truthy; destruct (decide _); congruence. }
    destruct value; simpl; try reflexivity; apply Htruthy.
  - intros s. rewrite <- strip_empty. simpl.
    destruct (strip s); simpl; split; congruence.
Qed.

Lemma coerce_optional_str_trimmed_witness :
  all_space "   " = true
  /\ @Checker._coerce_optional_str plain_runtime (PStr "   ") = None.
Proof.
  split.
  - reflexivity.
  - apply (proj2 (proj1 (proj2 (proj2 (@coerce_optional_str_trimmed
                                          plain_runtime))) "   ")).
    reflexivity.
Defined.

(** ** The gateway *)

(** C9 (as the code has it): for every profile id and scenario,
    [run_automation] posts one request to the automation path, and that
    request is the envelope of the steps under the keys [profile_id],
    [steps] and [options], each step a mapping with the keys [type] and
    [config], the options [fail_on_selector_timeout] and
    [capture_console] both true; the answer of the service to that
    request is what the call comes to. *)
Theorem run_automation_envelope svc self profile_id scenario :
  exists request self' opened,
    enveloped code_keys profile_id (Scenarios.steps scenario) request
    /\ Client.run_automation svc self profile_id
         (Scenarios.to_payload scenario)
       = (self', opened ++ [Client.Posted Client.automation_path request],
          svc Client.automation_path request)
    /\ Forall (fun e => forall path json, e <> Client.Posted path json) opened.
Proof.
  exists (Client.payload profile_id (Scenarios.to_payload scenario)).
  unfold Client.run_automation, Client.send_automation, Client._get_client.
  assert (enveloped code_keys profile_id (Scenarios.steps scenario)
            (Client.payload profile_id (Scenarios.to_payload scenario)))
    as Henv.
  { eexists _, _, _. split; [reflexivity|]. repeat split.
    unfold Scenarios.to_payload.
    induction (Scenarios.steps scenario) as [|step steps IH]; simpl.
    - constructor.
    - constructor; [|exact IH]. eexists. repeat split. }
  destruct (Client._client self) as [session|].
  - exists self, []. repeat split; auto.
  - eexists _, [_]. split; [exact Henv|]. split; [reflexivity|].
    constructor; [|constructor]. discriminate.
Qed.

(** C9 as stated fails: the request posted for profile "k1" has no key
    [profileId], so it is not the envelope under the specification's
    key names. *)
Lemma envelope_keys_are_snake_case :
  exists request,
    (Client.run_automation (fun _ _ => Raised "") local_client "k1"
       (Scenarios.to_payload open_page)).1.2
    = [Client.Opened
         {| Client.base_url := "http://local.adspower.net:50325";
            Client.headers := [("Content-Type", "application/json")];
            Client.timeout := S754_finite false 15 1 |};
       Client.Posted "/api/v1/automation/run" request]
    /\ ~ enveloped spec_keys "k1" (Scenarios.steps open_page) request.
Proof.
  eexists. split; [vm_compute; reflexivity|].
  intros (d & items & options & Heq & Hprofile & _).
  injection Heq as <-. vm_compute in Hprofile. discriminate.
Qed.

(** C10. [close] leaves the client without a session; on a client
    without a session, be it fresh or closed before, it changes nothing
    and disposes of nothing, so closing twice is closing once. *)
Theorem close_idempotent self :
  Client._client (Client.close self).1 = None
  /\ Client.close (Client.close self).1 = ((Client.close self).1, [])
  /\ (Client._client self = None -> Client.close self = (self, []))
  /\ (forall base_url api_key timeout_seconds,
        Client.close (Client.__init__ base_url api_key timeout_seconds)
        = (Client.__init__ base_url api_key timeout_seconds, []))
  /\ (forall session,
        Client._client self = Some session ->
        (Client.close self).2 = [Client.Disposed session]).
Proof.
  unfold Client.close. repeat split.
  - destruct (Client._client self) eqn:Hc; simpl; [reflexivity | exact Hc].
  - destruct (Client._client self) eqn:Hc; simpl; [reflexivity|].
    rewrite Hc. reflexivity.
  - intros ->. reflexivity.
  - intros session ->. reflexivity.
Qed.

Lemma close_idempotent_witness :
  Client._client local_client = None
  /\ Client.close local_client = (local_client, []).
Proof.
  split.
  - reflexivity.
  - apply (proj1 (proj2 (proj2 (close_idempotent local_client)))).
    reflexivity.
Defined.

(** A session that was opened is disposed of by the first [close] and
    not again by the second. *)
Example close_after_use :
  let '(used, _) := Client.__aenter__ local_client in
  let '(closed, first) := Client.close used in
  let '(closed', second) := Client.close closed in
  Client._client used <> None
  /\ length first = 1 /\ second = [] /\ closed' = closed
  /\ Client._client closed = None.
Proof. vm_compute. repeat split; discriminate. Qed.

(** ** The checker *)

(** C8. Whatever integer is passed as [concurrency], the checker keeps
    at least 1: a value below 1 becomes 1, any other is kept.  With
    that limit the event loop can always go on until [gather] returns. *)
Theorem concurrency_clamped `{PyRuntime} client scenario profiles concurrency :
  Checker._concurrency (Checker.__init__ client scenario profiles concurrency)
  = (if (concurrency <? 1)%Z then 1%Z else concurrency)
  /\ (1 <= Checker._concurrency
             (Checker.__init__ client scenario profiles concurrency))%Z
  /\ forall answers schedule,
       exists more rs,
         Checker.run answers
           (Checker.__init__ client scenario profiles concurrency)
           (schedule ++ more) = Some rs.
Proof.
  repeat split.
  - simpl. destruct (concurrency <? 1)%Z eqn:Hc.
    + apply Z.ltb_lt in Hc. lia.
    + apply Z.ltb_ge in Hc. lia.
  - simpl. lia.
  - intros answers schedule. apply run_completes. simpl. lia.
Qed.

Section Results.
Context `{PyRuntime}.
Variable answers : nat -> Client.service.
Variable self : Checker.AuthorizationChecker.

Local Abbreviation profiles := (Checker._profiles self).

Lemma run_ids schedule rs :
  Checker.run answers self schedule = Some rs ->
  map Models.profile_id rs = map Config.id profiles.
Proof.
  intros Hrun. destruct (run_settled answers self _ _ Hrun) as [Hlen Hres].
  apply list_eq. intros i.
  change (map Models.profile_id rs) with (Models.profile_id <$> rs).
  change (map Config.id profiles) with (Config.id <$> profiles).
  rewrite !list_lookup_fmap.
  destruct (profiles !! i) as [p|] eqn:Hp; simpl.
  - destruct (Hres _ _ Hp) as (r & -> & s & f & _ & ->). reflexivity.
  - apply lookup_ge_None in Hp. rewrite <- Hlen in Hp.
    apply lookup_ge_None in Hp. rewrite Hp. reflexivity.
Qed.

(** Every result in the list sits at the position of its profile. *)
Lemma run_member schedule rs r :
  Checker.run answers self schedule = Some rs -> In r rs ->
  exists i p, profiles !! i = Some p /\ rs !! i = Some r /\ settled answers self i p r.
Proof.
  intros Hrun Hin. destruct (run_settled answers self _ _ Hrun) as [Hlen Hres].
  apply list_elem_of_In, list_elem_of_lookup in Hin as [i Hi].
  destruct (lookup_lt_is_Some_2 profiles i) as [p Hp].
  { rewrite <- Hlen. eapply lookup_lt_Some; eauto. }
  destruct (Hres _ _ Hp) as (r' & Hr' & Hset).
  rewrite Hi in Hr'. injection Hr' as <-. eauto.
Qed.

(** The attempt of a job has details exactly when it succeeded and an
    error text exactly when it did not. *)
Lemma attempted_exclusive answer :
  let a := Checker.attempted answer in
  (is_Some (Checker.details a) <-> Checker.success a = true)
  /\ (is_Some (Checker.error a) <-> Checker.success a = false).
Proof.
  unfold Checker.attempted.
  destruct answer as [raw|msg]; [destruct (Checker.interpret raw)|];
    simpl; repeat split; intros; eauto; try discriminate;
    match goal with
    | Hs : is_Some None |- _ => destruct Hs; discriminate
    end.
Qed.
End Results.

(** C1. Whatever turns the event loop takes and however the service
    answers, [run] can always be brought to return, and what it returns
    has one result for each profile, at the position of that profile
    and with its id and label. *)
Theorem run_one_result_per_profile `{PyRuntime}
    answers client scenario profiles concurrency :
  let self := Checker.__init__ client scenario profiles concurrency in
  (forall schedule,
      exists more rs, Checker.run answers self (schedule ++ more) = Some rs)
  /\ forall schedule rs,
       Checker.run answers self schedule = Some rs ->
       length rs = length profiles
       /\ map Models.profile_id rs = map Config.id profiles
       /\ forall i p,
            profiles !! i = Some p ->
            exists r, rs !! i = Some r
                      /\ Models.profile_id r = Config.id p
                      /\ Models.label r = Config.label p.
Proof.
  intros self. split.
  - intros schedule. apply run_completes. simpl. lia.
  - intros schedule rs Hrun.
    destruct (run_settled answers self _ _ Hrun) as [Hlen Hres].
    split; [exact Hlen|]. split; [exact (run_ids answers self _ _ Hrun)|].
    intros i p Hp. destruct (Hres i p Hp) as (r & Hr & s & f & _ & ->).
    exists (Checker.check_result p s f (Checker.outcome answers self i p)).
    repeat split. exact Hr.
Qed.

(** C3 (as the code has it): in every result that [run] returns,
    [details] is present exactly when [success] is true and [error]
    exactly when it is false; the error is the text of the exception
    that was caught, which is the message of the gateway's exception
    (and may be empty) or the non-empty message of the interpreter's. *)
Theorem result_details_xor_error `{PyRuntime} answers self schedule rs :
  Checker.run answers self schedule = Some rs ->
  forall r, In r rs ->
    (is_Some (Models.details r) <-> Models.success r = true)
    /\ (is_Some (Models.error r) <-> Models.success r = false)
    /\ exists i p,
         Checker._profiles self !! i = Some p /\ rs !! i = Some r
         /\ match answers i Client.automation_path
                    (Client.payload (Config.id p)
                       (Scenarios.to_payload (Checker._scenario self))) with
            | Raised msg => Models.error r = Some msg
            | Returned raw =>
                match Checker.interpret raw with
                | Raised msg => Models.error r = Some msg /\ msg <> ""
                | Returned d =>
                    Models.error r = None /\ Models.details r = Some d
                end
            end.
Proof.
  intros Hrun r Hin.
  destruct (run_member answers self _ _ _ Hrun Hin)
    as (i & p & Hp & Hr & s & f & _ & ->).
  simpl. split; [apply attempted_exclusive|]. split; [apply attempted_exclusive|].
  exists i, p. split; [exact Hp|]. split; [exact Hr|].
  unfold Checker.outcome, Checker.attempted.
  destruct (answers i _ _) as [raw|msg]; [|reflexivity].
  destruct (Checker.interpret raw) as [d|msg] eqn:Hraw; simpl; auto.
  split; [reflexivity|]. eapply interpret_error. exact Hraw.
Qed.

(** C4. Let two services answer alike except to the job at position
    [k], which fails under the second: its request raises, or the
    interpreter does on the response.  Then the run under the second
    service can still be brought to return a full list; in it the
    result at [k] is a failure with an error text and no details, and
    every other result has the [success], [details] and [error] it has
    under the first service. *)
Theorem failure_isolated `{PyRuntime}
    answers answers' client scenario profiles concurrency k :
  let self := Checker.__init__ client scenario profiles concurrency in
  (forall i path request,
      i <> k -> answers' i path request = answers i path request) ->
  (forall path request, fails (answers' k path request)) ->
  (forall schedule,
      exists more rs', Checker.run answers' self (schedule ++ more) = Some rs')
  /\ forall schedule schedule' rs rs',
       Checker.run answers self schedule = Some rs ->
       Checker.run answers' self schedule' = Some rs' ->
       length rs' = length profiles
       /\ (forall r', rs' !! k = Some r' ->
                      Models.success r' = false
                      /\ Models.details r' = None
                      /\ is_Some (Models.error r'))
       /\ (forall i r r',
              i <> k -> rs !! i = Some r -> rs' !! i = Some r' ->
              Models.success r = Models.success r'
              /\ Models.details r = Models.details r'
              /\ Models.error r = Models.error r').
Proof.
  intros self Hsame Hfails. split.
  - intros schedule. apply run_completes. simpl. lia.
  - intros schedule schedule' rs rs' Hrun Hrun'.
    destruct (run_settled answers self _ _ Hrun) as [Hlen Hres].
    destruct (run_settled answers' self _ _ Hrun') as [Hlen' Hres'].
    split; [exact Hlen'|]. split.
    + intros r' Hr'.
      destruct (lookup_lt_is_Some_2 profiles k) as [p Hp].
      { change profiles with (Checker._profiles self). rewrite <- Hlen'.
        eapply lookup_lt_Some; eauto. }
      destruct (Hres' k p Hp) as (r1 & Hr1 & s & f & _ & ->).
      rewrite Hr' in Hr1. injection Hr1 as ->. simpl.
      unfold Checker.outcome, Checker.attempted.
      specialize (Hfails Client.automation_path
                    (Client.payload (Config.id p)
                       (Scenarios.to_payload (Checker._scenario self)))).
      destruct (answers' k _ _) as [raw|msg]; simpl in *; [|eauto].
      destruct Hfails as [msg ->]. simpl. eauto.
    + intros i r r' Hne Hr Hr'.
      destruct (lookup_lt_is_Some_2 profiles i) as [p Hp].
      { change profiles with (Checker._profiles self). rewrite <- Hlen.
        eapply lookup_lt_Some; eauto. }
      destruct (Hres i p Hp) as (r0 & Hr0 & s & f & _ & ->).
      destruct (Hres' i p Hp) as (r1 & Hr1 & s' & f' & _ & ->).
      rewrite Hr in Hr0. injection Hr0 as ->.
      rewrite Hr' in Hr1. injection Hr1 as ->.
      unfold Checker.outcome. rewrite Hsame by exact Hne.
      repeat split.
Qed.

(** C5. Under one service, two runs of the same profiles and scenario
    with any two concurrency limits return lists that agree, position
    by position, in id, label, success, details, error and raw
    response: the limit bears on timing only, that is on the time
    stamps [started_at] and [finished_at], which stay in order. *)
Theorem concurrency_changes_timing_only `{PyRuntime}
    answers client scenario profiles concurrency concurrency'
    schedule schedule' rs rs' :
  Checker.run answers
    (Checker.__init__ client scenario profiles concurrency) schedule
  = Some rs ->
  Checker.run answers
    (Checker.__init__ client scenario profiles concurrency') schedule'
  = Some rs' ->
  Forall2 same_outcome rs rs'
  /\ Forall (fun r => Models.started_at r <= Models.finished_at r) rs
  /\ Forall (fun r => Models.started_at r <= Models.finished_at r) rs'.
Proof.
  intros Hrun Hrun'.
  destruct (run_settled answers _ _ _ Hrun) as [Hlen Hres].
  destruct (run_settled answers _ _ _ Hrun') as [Hlen' Hres'].
  simpl in *. split; [|split].
  - apply Forall2_same_length_lookup. split; [congruence|].
    intros i r r' Hr Hr'.
    destruct (lookup_lt_is_Some_2 profiles i) as [p Hp].
    { rewrite <- Hlen. eapply lookup_lt_Some; eauto. }
    destruct (Hres i p Hp) as (r0 & Hr0 & s & f & _ & ->).
    destruct (Hres' i p Hp) as (r1 & Hr1 & s' & f' & _ & ->).
    rewrite Hr in Hr0. injection Hr0 as ->.
    rewrite Hr' in Hr1. injection Hr1 as ->.
    repeat split.
  - apply Forall_forall. intros r Hin. apply list_elem_of_In in Hin.
    destruct (run_member answers _ _ _ _ Hrun Hin)
      as (i & p & _ & _ & s & f & Hsf & ->).
    exact Hsf.
  - apply Forall_forall. intros r Hin. apply list_elem_of_In in Hin.
    destruct (run_member answers _ _ _ _ Hrun' Hin)
      as (i & p & _ & _ & s & f & Hsf & ->).
    exact Hsf.
Qed.

(** ** Worked instances *)

Section Worked.
#[local] Existing Instance plain_runtime.

Lemma run_one_result_per_profile_witness :
  Checker.run (failing_at 1)
    (Checker.__init__ local_client open_page [alice; bob; carol] 2)
    [at_ 0 0; at_ 1 0; at_ 2 0; at_ 1 3; at_ 2 0; at_ 0 4; at_ 2 9]
  = Some
      [Checker.check_result alice 0 7
         (Checker.attempted (Returned logged_in));
       Checker.check_result bob 0 3
         (Checker.attempted (Raised "connection refused"));
       Checker.check_result carol 0 16
         (Checker.attempted (Returned logged_in))]
  /\ map Models.profile_id
       [Checker.check_result alice 0 7
          (Checker.attempted (Returned logged_in));
        Checker.check_result bob 0 3
          (Checker.attempted (Raised "connection refused"));
        Checker.check_result carol 0 16
          (Checker.attempted (Returned logged_in))]
     = ["k1"; "k2"; "k3"].
Proof.
  split.
  - vm_compute. reflexivity.
  - apply (proj1 (proj2 (proj2 (run_one_result_per_profile
             (failing_at 1) local_client open_page [alice; bob; carol] 2)
             [at_ 0 0; at_ 1 0; at_ 2 0; at_ 1 3; at_ 2 0; at_ 0 4; at_ 2 9]
             _ eq_refl))).
Defined.

(** C3 as stated fails: when the request for "k1" times out without a
    message, the result carries an error that is present and empty. *)
Lemma error_text_may_be_empty :
  Checker.run always_timeout
    (Checker.__init__ local_client open_page [alice] 3)
    [at_ 0 0; at_ 0 30]
  = Some
      [ {| Models.profile_id := "k1";
           Models.label := Some "Alice";
           Models.success := false;
           Models.details := None;
           Models.error := Some "";
           Models.started_at := 0;
           Models.finished_at := 30;
           Models.raw_response := PDict [] |} ].
Proof. vm_compute. reflexivity. Qed.

Lemma result_details_xor_error_witness :
  Checker.run (failing_at 0)
    (Checker.__init__ local_client open_page [alice] 3)
    [at_ 0 0; at_ 0 2]
  = Some [Checker.check_result alice 0 2
            (Checker.attempted (Raised "connection refused"))]
  /\ Models.error
       (Checker.check_result alice 0 2
          (Checker.attempted (Raised "connection refused")))
     <> None.
Proof.
  split.
  - vm_compute. reflexivity.
  - intros Hnone.
    destruct (result_details_xor_error (failing_at 0)
                (Checker.__init__ local_client open_page [alice] 3)
                [at_ 0 0; at_ 0 2] _ eq_refl
                (Checker.check_result alice 0 2
                   (Checker.attempted (Raised "connection refused")))
                (or_introl eq_refl)) as (_ & Herror & _).
    destruct (proj2 Herror eq_refl) as [msg Hmsg].
    rewrite Hnone in Hmsg. discriminate.
Defined.

Lemma failure_isolated_witness :
  fails (failing_at 1 1 Client.automation_path PNone)
  /\ Checker.run always_bob three calm_schedule = Some calm_results
  /\ Checker.run (failing_at 1) three rough_schedule = Some rough_results
  /\ Models.success
       (Checker.check_result carol 0 9
          (Checker.attempted (Returned logged_in)))
     = Models.success
         (Checker.check_result carol 0 16
            (Checker.attempted (Returned logged_in))).
Proof.
  split; [exact I|]. split; [vm_compute; reflexivity|].
  split; [vm_compute; reflexivity|].
  assert (forall i path request,
             i <> 1 -> failing_at 1 i path request = always_bob i path request)
    as Hsame.
  { intros i path request Hne. unfold failing_at, always_bob.
    destruct (Nat.eqb_spec i 1); [contradiction | reflexivity]. }
  refine (proj1 (proj2 (proj2 (proj2 (failure_isolated always_bob
                                        (failing_at 1) local_client open_page
                                        [alice; bob; carol] 2 1 Hsame
                                        (fun _ _ => I))
                                 calm_schedule rough_schedule
                                 calm_results rough_results _ _))
                   2 _ _ _ eq_refl eq_refl)).
  - vm_compute. reflexivity.
  - vm_compute. reflexivity.
  - discriminate.
Defined.

(** Where the limit does show is the timing: with requests that take
    five units of time each, the second of two jobs finishes at 10
    under the limit 1 and at 5 under the limit 2. *)
Lemma finished_at_depends_on_concurrency :
  exists rs rs',
    Checker.run always_bob
      (Checker.__init__ local_client open_page [alice; bob] 1)
      [at_ 0 0; at_ 1 0; at_ 0 5; at_ 1 0; at_ 1 5] = Some rs
    /\ Checker.run always_bob
         (Checker.__init__ local_client open_page [alice; bob] 2)
         [at_ 0 0; at_ 1 0; at_ 0 5; at_ 1 0] = Some rs'
    /\ Models.finished_at <$> rs = [5; 10]
    /\ Models.finished_at <$> rs' = [5; 5]
    /\ rs <> rs'.
Proof.
  eexists _, _. split; [vm_compute; reflexivity|].
  split; [vm_compute; reflexivity|].
  split; [reflexivity|]. split; [reflexivity|].
  intros Heq. apply (f_equal (fmap Models.finished_at)) in Heq.
  vm_compute in Heq. discriminate.
Qed.

Lemma concurrency_changes_timing_only_witness :
  Checker.run always_bob
    (Checker.__init__ local_client open_page [alice; bob] 1)
    [at_ 0 0; at_ 1 0; at_ 0 5; at_ 1 0; at_ 1 5]
  = Some [Checker.check_result alice 0 5
            (Checker.attempted (Returned logged_in));
          Checker.check_result bob 0 10
            (Checker.attempted (Returned logged_in))]
  /\ Checker.run always_bob
       (Checker.__init__ local_client open_page [alice; bob] 2)
       [at_ 0 0; at_ 1 0; at_ 0 5; at_ 1 0]
     = Some [Checker.check_result alice 0 5
               (Checker.attempted (Returned logged_in));
             Checker.check_result bob 0 5
               (Checker.attempted (Returned logged_in))]
  /\ Forall2 same_outcome
       [Checker.check_result alice 0 5
          (Checker.attempted (Returned logged_in));
        Checker.check_result bob 0 10
          (Checker.attempted (Returned logged_in))]
       [Checker.check_result alice 0 5
          (Checker.attempted (Returned logged_in));
        Checker.check_result bob 0 5
          (Checker.attempted (Returned logged_in))].
Proof.
  split; [vm_compute; reflexivity|]. split; [vm_compute; reflexivity|].
  apply (proj1 (concurrency_changes_timing_only always_bob local_client
                  open_page [alice; bob] 1 2
                  [at_ 0 0; at_ 1 0; at_ 0 5; at_ 1 0; at_ 1 5]
                  [at_ 0 0; at_ 1 0; at_ 0 5; at_ 1 0] _ _
                  eq_refl eq_refl)).
Defined.

(** The specification's example of a service that always succeeds. *)
Example always_bob_details :
  Checker.run always_bob
    (Checker.__init__ local_client open_page [alice] 0) [at_ 0 0; at_ 0 1]
  = Some
      [ {| Models.profile_id := "k1";
           Models.label := Some "Alice";
           Models.success := true;
           Models.details :=
             Some {| Models.authorized := true;
                     Models.display_name := Some "Bob";
                     Models.profile_serial := None;
                     Models.raw_variables :=
                       [("service_authorized", PStr "true");
                        ("service_display_name", PStr " Bob ")] |};
           Models.error := None;
           Models.started_at := 0;
           Models.finished_at := 1;
           Models.raw_response := logged_in |} ].
Proof. vm_compute. reflexivity. Qed.

End Worked.

(** * Further properties of the code *)

(** ** The event loop, one turn at a time *)

Section Turns.
Context `{PyRuntime}.
Variable answers : nat -> Client.service.
Variable self : Checker.AuthorizationChecker.

Local Abbreviation profiles := (Checker._profiles self).
Local Abbreviation resume := (Checker.resume answers self).
Local Abbreviation request_for p :=
  (Client.payload (Config.id p) (Scenarios.to_payload (Checker._scenario self))).

(** What a turn can be: nothing but the passing of time, a task
    reaching for the semaphore, or a request being answered. *)
Lemma resume_cases w e :
  let w1 := Checker.tick (Checker.elapsed e) w in
  resume w e = w1
  \/ (exists i p s t,
         Checker.tasks w1 !! i = Some t /\ started t = false
         /\ (t = Checker.Created /\ s = Checker.clock w1
             \/ t = Checker.Acquiring s)
         /\ profiles !! i = Some p
         /\ resume w e = Checker.enter self i p s w1)
  \/ (exists i p s request,
         Checker.tasks w1 !! i = Some (Checker.Calling s request)
         /\ profiles !! i = Some p
         /\ resume w e = Checker.leave answers i p s request w1).
Proof.
  intros w1. unfold Checker.resume. fold w1.
  destruct (Checker.tasks w1 !! Checker.woken e) as [t|] eqn:Ht; [|auto].
  destruct (profiles !! Checker.woken e) as [p|] eqn:Hp;
    [|destruct t; auto].
  destruct t as [|s|s request|r]; auto.
  - right. left.
    exists (Checker.woken e), p, (Checker.clock w1), Checker.Created. auto 6.
  - right. left. exists (Checker.woken e), p, s, (Checker.Acquiring s). auto 6.
  - right. right. exists (Checker.woken e), p, s, request. auto.
Qed.

(** An invariant of the loop is kept by every schedule once it is kept
    by the three kinds of turn. *)
Lemma schedule_keeps (P : Checker.world -> Prop) :
  (forall dt w, P w -> P (Checker.tick dt w)) ->
  (forall i p s t w,
      Checker.tasks w !! i = Some t -> started t = false ->
      (t = Checker.Created /\ s = Checker.clock w \/ t = Checker.Acquiring s) ->
      profiles !! i = Some p -> P w -> P (Checker.enter self i p s w)) ->
  (forall i p s request w,
      Checker.tasks w !! i = Some (Checker.Calling s request) ->
      profiles !! i = Some p ->
      P w -> P (Checker.leave answers i p s request w)) ->
  forall schedule w, P w -> P (fold_left resume schedule w).
Proof.
  intros Htick Henter Hleave schedule.
  induction schedule as [|e schedule IH]; intros w Hw; simpl; [exact Hw|].
  apply IH.
  destruct (resume_cases w e)
    as [-> | [(i & p & s & t & Ht & Hs & Hkind & Hp & ->)
             | (i & p & s & request & Ht & Hp & ->)]]; eauto.
Qed.

Lemma send_automation_posted g profile_id steps :
  posted (Client.send_automation g profile_id steps).1.2
  = [Client.payload profile_id steps]
  /\ disposed (Client.send_automation g profile_id steps).1.2 = [].
Proof.
  unfold Client.send_automation, Client._get_client.
  destruct (Client._client g); split; reflexivity.
Qed.

Lemma send_automation_session g profile_id steps :
  match Client._client g with
  | Some _ =>
      (Client.send_automation g profile_id steps).1.1 = g
      /\ opened (Client.send_automation g profile_id steps).1.2 = []
  | None =>
      (Client.send_automation g profile_id steps).1.1
      = Client.with_client g (Some (session_for g))
      /\ opened (Client.send_automation g profile_id steps).1.2
         = [session_for g]
  end.
Proof.
  unfold Client.send_automation, Client._get_client.
  destruct (Client._client g); split; reflexivity.
Qed.

Lemma posted_app a b : posted (a ++ b) = posted a ++ posted b.
Proof. apply flat_map_app. Qed.

Lemma opened_app a b : opened (a ++ b) = opened a ++ opened b.
Proof. apply flat_map_app. Qed.

Lemma disposed_app a b : disposed (a ++ b) = disposed a ++ disposed b.
Proof. apply flat_map_app. Qed.

(** *** Permits *)

Lemma schedule_permits_left schedule w :
  (0 <= Checker.permits w)%Z ->
  (0 <= Checker.permits (fold_left resume schedule w))%Z.
Proof.
  apply (schedule_keeps (fun w => (0 <= Checker.permits w)%Z)).
  - intros dt w0 Hw. exact Hw.
  - intros i p s t w0 _ _ _ _ Hw. unfold Checker.enter.
    destruct (0 <? Checker.permits w0)%Z eqn:Hfree.
    + destruct (Client.send_automation _ _ _) as [[g' sent] request]. simpl.
      apply Z.ltb_lt in Hfree. lia.
    + exact Hw.
  - intros i p s request w0 _ _ Hw. simpl. lia.
Qed.

Lemma gathered_holding ts rs :
  Checker.gather ts = Some rs -> total holding ts = 0.
Proof.
  unfold Checker.gather. revert rs.
  induction ts as [|t ts IH]; intros rs; simpl; [reflexivity|].
  destruct t; simpl; try discriminate.
  destruct (mapM Checker.finished ts) as [rs'|] eqn:Hts; simpl;
    [|discriminate].
  intros _. exact (IH _ eq_refl).
Qed.

(** *** Requests *)

Lemma requested_insert ts ps i t t' p :
  ts !! i = Some t -> ps !! i = Some p ->
  Permutation
    (request_of self t p ++ requested self (<[i := t']> ts) ps)
    (request_of self t' p ++ requested self ts ps).
Proof.
  unfold requested. revert ps i.
  induction ts as [|t0 ts IH]; intros [|p0 ps] [|i] Ht Hp; simpl in *;
    try discriminate.
  - injection Ht as ->. injection Hp as ->.
    rewrite !app_assoc. apply Permutation_app_tail, Permutation_app_comm.
  - specialize (IH _ _ Ht Hp).
    rewrite !app_assoc.
    rewrite (Permutation_app_comm (request_of self t p)).
    rewrite (Permutation_app_comm (request_of self t' p)).
    rewrite <- !app_assoc. apply Permutation_app_head. exact IH.
Qed.

Lemma requested_start ps :
  requested self (map (fun _ => Checker.Created) ps) ps = [].
Proof. unfold requested. induction ps as [|p ps IH]; simpl; auto. Qed.

Lemma requested_finished ts ps rs :
  Checker.gather ts = Some rs -> length ts = length ps ->
  requested self ts ps = map (fun p => request_for p) ps.
Proof.
  unfold Checker.gather, requested. revert ps rs.
  induction ts as [|t ts IH]; intros [|p ps] rs; simpl; try discriminate;
    [reflexivity|].
  destruct t; simpl; try discriminate.
  destruct (mapM Checker.finished ts) as [rs'|] eqn:Hts; simpl;
    [|discriminate].
  intros _ Hlen. f_equal. eapply IH; [reflexivity | lia].
Qed.

Local Abbreviation requests_inv := (requests_inv answers self).

Lemma schedule_requests schedule w :
  requests_inv w -> requests_inv (fold_left resume schedule w).
Proof.
  apply (schedule_keeps requests_inv).
  - intros dt w0 [Hinv Hperm]. split; [apply tick_inv, Hinv | exact Hperm].
  - intros i p s t w0 Ht Hs Hkind Hp [Hinv Hperm].
    assert (s <= Checker.clock w0) as Hclock.
    { destruct Hkind as [[_ ->] | ->]; [lia|].
      exact (proj2 Hinv _ _ _ Ht Hp). }
    split; [apply enter_inv; auto|].
    unfold Checker.enter.
    destruct (0 <? Checker.permits w0)%Z.
    + pose proof (send_automation_posted (Checker.gateway w0) (Config.id p)
                    (Scenarios.to_payload (Checker._scenario self)))
        as [Hposted _].
      pose proof (send_automation_request (Checker.gateway w0) (Config.id p)
                    (Scenarios.to_payload (Checker._scenario self))) as Hreq.
      destruct (Client.send_automation _ _ _) as [[g' sent] request].
      simpl in *. subst request. rewrite posted_app, Hposted.
      pose proof (requested_insert _ _ _ _
                    (Checker.Calling s (request_for p)) _ Ht Hp) as Hins.
      unfold request_of at 1 2 in Hins. rewrite Hs in Hins. simpl in Hins.
      rewrite Hins. rewrite <- Hperm. symmetry. apply Permutation_cons_append.
    + simpl.
      pose proof (requested_insert _ _ _ _ (Checker.Acquiring s) _ Ht Hp)
        as Hins.
      unfold request_of at 1 2 in Hins. rewrite Hs in Hins. simpl in Hins.
      rewrite Hins. exact Hperm.
  - intros i p s request w0 Ht Hp [Hinv Hperm].
    pose proof (proj2 Hinv _ _ _ Ht Hp) as [Hs ->].
    split; [apply leave_inv; auto|]. simpl.
    pose proof (requested_insert _ _ _ _
                  (Checker.Finished
                     (Checker.check_result p s (Checker.clock w0)
                        (Checker.attempted
                           (answers i Client.automation_path (request_for p)))))
                  _ Ht Hp) as Hins.
    unfold request_of at 1 2 in Hins. simpl in Hins.
    apply Permutation_cons_inv in Hins. rewrite Hins. exact Hperm.
Qed.
End Turns.

Section Sessions.
Context `{PyRuntime}.
Variable answers : nat -> Client.service.
Variable self : Checker.AuthorizationChecker.

Local Abbreviation resume := (Checker.resume answers self).
Local Abbreviation client := (Checker._client self).

(** The client either is as it was handed over and nothing was opened,
    or it had no session and now holds the one that was opened for
    it; nothing is ever disposed of. *)
Lemma schedule_sessions schedule :
  let w := fold_left resume schedule (Checker.start self) in
  disposed (Checker.effects w) = []
  /\ (Checker.gateway w = client /\ opened (Checker.effects w) = []
         /\ (Client._client client = None -> posted (Checker.effects w) = [])
      \/ Client._client client = None
         /\ Checker.gateway w = Client.with_client client (Some (session_for client))
         /\ opened (Checker.effects w) = [session_for client]).
Proof.
  apply (schedule_keeps answers self
           (fun w =>
              disposed (Checker.effects w) = []
              /\ (Checker.gateway w = client
                  /\ opened (Checker.effects w) = []
                  /\ (Client._client client = None ->
                      posted (Checker.effects w) = [])
                  \/ Client._client client = None
                     /\ Checker.gateway w
                        = Client.with_client client (Some (session_for client))
                     /\ opened (Checker.effects w) = [session_for client]))).
  - intros dt w Hw. exact Hw.
  - intros i p s t w _ _ _ _ [Hdisposed Hw]. unfold Checker.enter.
    destruct (0 <? Checker.permits w)%Z; [|split; assumption].
    pose proof (send_automation_posted (Checker.gateway w) (Config.id p)
                  (Scenarios.to_payload (Checker._scenario self)))
      as [_ Hnone].
    pose proof (send_automation_session (Checker.gateway w) (Config.id p)
                  (Scenarios.to_payload (Checker._scenario self))) as Hsession.
    destruct (Client.send_automation _ _ _) as [[g' sent] request].
    simpl in *. rewrite disposed_app, Hdisposed, Hnone.
    split; [reflexivity|]. rewrite opened_app.
    destruct Hw as [(Hg & Hopened & Hposted) | (Hnew & Hg & Hopened)];
      rewrite Hg in Hsession.
    + destruct (Client._client client) as [session|] eqn:Hclient.
      * destruct Hsession as [-> ->]. left. rewrite Hopened.
        split; [reflexivity|]. split; [reflexivity | discriminate].
      * destruct Hsession as [-> ->]. right. rewrite Hopened.
        repeat split.
    + simpl in Hsession. destruct Hsession as [-> ->]. right.
      rewrite Hopened. repeat split; assumption.
  - intros i p s request w _ _ Hw. exact Hw.
  - simpl. split; [reflexivity|]. left. repeat split.
Qed.

End Sessions.

(** X1. However the loop is scheduled, the requests in flight never
    outnumber the limit: permits are never overdrawn, those left and
    those held add up to the limit, and all are back when [gather]
    returns. *)
Theorem in_flight_bounded `{PyRuntime}
    answers client scenario profiles concurrency schedule :
  let self := Checker.__init__ client scenario profiles concurrency in
  let w := state answers self schedule in
  (0 <= Checker.permits w)%Z
  /\ (Checker.permits w + Z.of_nat (total holding (Checker.tasks w))
      = Z.max 1 concurrency)%Z
  /\ (Z.of_nat (total holding (Checker.tasks w)) <= Z.max 1 concurrency)%Z
  /\ (forall rs, Checker.run answers self schedule = Some rs ->
                 Checker.permits w = Z.max 1 concurrency).
Proof.
  intros self w. unfold Checker.run. subst w. unfold state.
  pose proof (schedule_permits_left answers self schedule (Checker.start self))
    as Hleft.
  pose proof (schedule_permits answers self schedule _ (start_permits self))
    as Hsum.
  unfold permits_inv in Hsum.
  set (w := fold_left _ _ _) in *.
  change (Checker._concurrency self) with (Z.max 1 concurrency) in *.
  assert (0 <= Checker.permits w)%Z as Hleft' by (apply Hleft; simpl; lia).
  repeat split; [exact Hleft' | exact Hsum | lia |].
  intros rs Hrun. apply gathered_holding in Hrun. lia.
Qed.

(** X2. When [run] returns, the requests that were posted are the
    envelopes of the profiles, each exactly once: no profile is tried
    twice and none is left out. *)
Theorem one_request_per_profile `{PyRuntime} answers self schedule rs :
  Checker.run answers self schedule = Some rs ->
  Permutation
    (posted (Checker.effects (state answers self schedule)))
    (map (fun p => Client.payload (Config.id p)
                     (Scenarios.to_payload (Checker._scenario self)))
       (Checker._profiles self)).
Proof.
  intros Hrun.
  destruct (schedule_requests answers self schedule (Checker.start self))
    as [[Hlen _] Hperm].
  { split; [apply start_inv|]. simpl. rewrite requested_start. reflexivity. }
  rewrite Hperm. erewrite requested_finished; eauto.
Qed.

(** X3. A run opens at most one session, the one built from the
    client's settings, and none when the client already holds one; it
    never disposes of a session, and no request is posted without
    one. *)
Theorem at_most_one_session `{PyRuntime} answers self schedule :
  let w := state answers self schedule in
  disposed (Checker.effects w) = []
  /\ length (opened (Checker.effects w)) <= 1
  /\ Forall (fun s => s = session_for (Checker._client self))
       (opened (Checker.effects w))
  /\ (forall session,
        Client._client (Checker._client self) = Some session ->
        opened (Checker.effects w) = []
        /\ Checker.gateway w = Checker._client self)
  /\ (posted (Checker.effects w) <> [] ->
      Client._client (Checker.gateway w) <> None).
Proof.
  intros w. subst w. unfold state.
  pose proof (schedule_sessions answers self schedule) as Hsessions.
  cbv zeta in Hsessions. set (w := fold_left _ _ _) in *.
  destruct Hsessions
    as [Hdisposed [(Hg & Hopened & Hposted) | (Hnew & Hg & Hopened)]];
    rewrite Hopened; (split; [exact Hdisposed|]).
  - split; [simpl; lia|]. split; [constructor|]. split; [auto|].
    rewrite Hg. intros Hsent Hnone. auto.
  - split; [simpl; lia|]. split; [repeat constructor|]. split.
    + intros session Hsome. rewrite Hnew in Hsome. discriminate.
    + rewrite Hg. discriminate.
Qed.


(** X5. Without profiles [run] returns the empty list at once, under
    every schedule, and touches neither the service nor the client. *)
Theorem run_without_profiles `{PyRuntime}
    answers client scenario concurrency schedule :
  let self := Checker.__init__ client scenario [] concurrency in
  Checker.run answers self schedule = Some []
  /\ Checker.effects (state answers self schedule) = []
  /\ Checker.gateway (state answers self schedule) = client.
Proof.
  intros self. unfold Checker.run, state.
  assert (forall w, Checker.tasks w = [] ->
                    Checker.tasks (fold_left (Checker.resume answers self) schedule w) = []
                    /\ Checker.effects (fold_left (Checker.resume answers self) schedule w)
                       = Checker.effects w
                    /\ Checker.gateway (fold_left (Checker.resume answers self) schedule w)
                       = Checker.gateway w) as Hidle.
  { induction schedule as [|e schedule IH]; intros w Hw; simpl; [auto|].
    assert (Checker.resume answers self w e = Checker.tick (Checker.elapsed e) w)
      as ->.
    { unfold Checker.resume. simpl. rewrite Hw. reflexivity. }
    apply (IH (Checker.tick (Checker.elapsed e) w)). exact Hw. }
  destruct (Hidle (Checker.start self) eq_refl) as (-> & -> & ->).
  repeat split.
Qed.

(** ** What a result carries *)

Section Carried.
Context `{PyRuntime}.

Lemma coerce_clean value t :
  Checker._coerce_optional_str value = Some t ->
  t = strip (py_str value) /\ t <> "" /\ starts_clean t /\ ends_clean t.
Proof.
  destruct (strip_split (py_str value)) as (l & r & _ & _ & _ & Hstart & Hend).
  unfold Checker._coerce_optional_str.
  destruct value; try discriminate;
    (destruct (strip _) eqn:Hstrip; simpl; [discriminate|];
     intros [= <-]; repeat split; auto; discriminate).
Qed.

Lemma interpret_details raw d :
  Checker.interpret raw = Returned d ->
  Checker._extract_variables raw = Returned (Models.raw_variables d)
  /\ Models.authorized d
     = Checker._parse_bool
         (dict_get "service_authorized" (Models.raw_variables d))
  /\ Models.display_name d
     = Checker._coerce_optional_str
         (dict_get "service_display_name" (Models.raw_variables d))
  /\ Models.profile_serial d
     = Checker._coerce_optional_str
         (dict_get "profile_serial" (Models.raw_variables d)).
Proof.
  unfold Checker.interpret.
  destruct (Checker._extract_variables raw) as [variables|msg]; simpl;
    [|discriminate].
  intros [= <-]. repeat split.
Qed.
End Carried.

(** X6. In every result that [run] returns, [raw_response] is the
    empty mapping when the request raised and otherwise the response as
    it came, also when the interpreter failed on it; the details of a
    success keep the variables that were extracted from it. *)
Theorem raw_response_verbatim `{PyRuntime} answers self schedule rs :
  Checker.run answers self schedule = Some rs ->
  forall i p r,
    Checker._profiles self !! i = Some p -> rs !! i = Some r ->
    match answers i Client.automation_path
            (Client.payload (Config.id p)
               (Scenarios.to_payload (Checker._scenario self))) with
    | Raised _ => Models.raw_response r = PDict []
    | Returned raw =>
        Models.raw_response r = raw
        /\ forall d, Models.details r = Some d ->
                     Checker._extract_variables raw
                     = Returned (Models.raw_variables d)
    end.
Proof.
  intros Hrun i p r Hp Hr.
  destruct (run_settled answers self _ _ Hrun) as [_ Hres].
  destruct (Hres i p Hp) as (r' & Hr' & s & f & _ & ->).
  rewrite Hr in Hr'. injection Hr' as ->. simpl.
  unfold Checker.outcome, Checker.attempted.
  destruct (answers i _ _) as [raw|msg]; [|reflexivity].
  destruct (Checker.interpret raw) as [d|msg] eqn:Hraw; simpl.
  - split; [reflexivity|]. intros d' [= <-].
    apply interpret_details, Hraw.
  - split; [reflexivity | discriminate].
Qed.

(** X7. The details of every result that [run] returns are clean: the
    display name and the profile serial, when present, are not empty
    and neither start nor end with white space, and [authorized] is the
    reading of the captured variable. *)
Theorem details_text_is_trimmed `{PyRuntime} answers self schedule rs :
  Checker.run answers self schedule = Some rs ->
  forall r d,
    In r rs -> Models.details r = Some d ->
    (forall t, Models.display_name d = Some t ->
               t <> "" /\ starts_clean t /\ ends_clean t)
    /\ (forall t, Models.profile_serial d = Some t ->
                  t <> "" /\ starts_clean t /\ ends_clean t)
    /\ Models.authorized d
       = Checker._parse_bool
           (dict_get "service_authorized" (Models.raw_variables d))
    /\ Models.success r = true.
Proof.
  intros Hrun r d Hin Hd.
  destruct (run_member answers self _ _ _ Hrun Hin)
    as (i & p & _ & _ & s & f & _ & ->).
  simpl in *. unfold Checker.outcome, Checker.attempted in *.
  destruct (answers i _ _) as [raw|msg]; [|discriminate].
  destruct (Checker.interpret raw) as [d'|msg] eqn:Hraw; simpl in *;
    [|discriminate].
  injection Hd as ->.
  destruct (interpret_details _ _ Hraw) as (_ & Hauth & Hname & Hserial).
  repeat split; auto;
    match goal with
    | Ht : _ = Some ?t |- _ =>
        rewrite ?Hname, ?Hserial in Ht; apply coerce_clean in Ht; tauto
    end.
Qed.

(** ** The response interpreter, two shapes of response *)

(** X8. [_extract_variables] gives back the variables put under
    [data.variables], whatever else the response holds, and those put
    under the top-level [variables] when [data] is absent or is a
    mapping whose [variables] are absent or not a mapping; a nested
    mapping wins even when it is empty. *)
Theorem extract_variables_finds_both_shapes :
  (forall top data variables,
      dict_lookup "data" top = Some (PDict data) ->
      dict_lookup "variables" data = Some (PDict variables) ->
      Checker._extract_variables (PDict top) = Returned variables)
  /\ (forall top variables,
        dict_lookup "data" top = None ->
        dict_lookup "variables" top = Some (PDict variables) ->
        Checker._extract_variables (PDict top) = Returned variables)
  /\ (forall top data variables,
        dict_lookup "data" top = Some (PDict data) ->
        (forall nested, dict_lookup "variables" data <> Some (PDict nested)) ->
        dict_lookup "variables" top = Some (PDict variables) ->
        Checker._extract_variables (PDict top) = Returned variables).
Proof.
  repeat split.
  - intros top data variables Hdata Hnested.
    rewrite (extract_variables_mapping_data top data).
    + unfold dict_get. rewrite Hnested. reflexivity.
    + unfold dict_get_default. rewrite Hdata. reflexivity.
  - intros top variables Hdata Htop.
    rewrite (extract_variables_mapping_data top []).
    + unfold dict_get. simpl. rewrite Htop. reflexivity.
    + unfold dict_get_default. rewrite Hdata. reflexivity.
  - intros top data variables Hdata Hnested Htop.
    rewrite (extract_variables_mapping_data top data).
    + unfold dict_get. rewrite Htop.
      destruct (dict_lookup "variables" data) as [[| | | | | |nested]|];
        try reflexivity.
      exfalso. eapply Hnested. reflexivity.
    + unfold dict_get_default. rewrite Hdata. reflexivity.
Qed.

(** ** The validator of a profile id *)

(** X9. [_strip_id] accepts an id exactly when it is not white space
    only; what it returns is the id without the white space around it,
    is not empty, and is accepted unchanged when validated again; what
    it raises is the one message of the validator. *)
Theorem strip_id_validates value :
  match Validation._strip_id value with
  | Returned cleaned =>
      all_space value = false
      /\ cleaned <> ""
      /\ starts_clean cleaned /\ ends_clean cleaned
      /\ (exists l r, value = l +:+ cleaned +:+ r
                      /\ all_space l = true /\ all_space r = true)
      /\ Validation._strip_id cleaned = Returned cleaned
  | Raised msg =>
      all_space value = true /\ msg = "profile id cannot be empty"
  end.
Proof.
  unfold Validation._strip_id.
  destruct (strip_split value) as (l & r & Heq & Hl & Hr & Hstart & Hend).
  destruct (strip value) as [|c cleaned] eqn:Hstrip; simpl.
  - split; [|reflexivity]. apply strip_empty, Hstrip.
  - split.
    { destruct (all_space value) eqn:Hsp; [|reflexivity].
      apply strip_empty in Hsp. congruence. }
    split; [discriminate|]. split; [exact Hstart|]. split; [exact Hend|].
    split; [exists l, r; auto|].
    assert (strip (String c cleaned) = String c cleaned) as ->.
    { unfold strip. rewrite lstrip_started by exact Hstart.
      apply rstrip_ended, Hend. }
    reflexivity.
Qed.

(** ** The client *)

Section Slashes.

#[local] Arguments String.append !s1 s2 : simpl nomatch.

Lemma rstrip_chars_split drop s :
  exists r, s = rstrip_chars drop s +:+ r /\ all_chars drop r = true.
Proof.
  induction s as [|c s IH]; simpl.
  - exists "". auto.
  - destruct IH as (r & Hr & Hdrop).
    destruct (rstrip_chars drop s) as [|c' kept] eqn:Hk.
    + destruct (drop c) eqn:Hc.
      * exists (String c r). simpl in *. rewrite Hc, Hdrop.
        split; [congruence | reflexivity].
      * exists r. simpl in *. split; [congruence | exact Hdrop].
    + exists r. simpl in *. split; [congruence | exact Hdrop].
Qed.

Lemma rstrip_chars_last drop s c :
  last_char (rstrip_chars drop s) = Some c -> drop c = false.
Proof.
  induction s as [|c0 s IH]; simpl; [discriminate|].
  destruct (rstrip_chars drop s) as [|c' kept] eqn:Hk.
  - destruct (drop c0) eqn:Hc; simpl; [discriminate|]. congruence.
  - simpl in *. exact IH.
Qed.

Lemma rstrip_chars_kept drop s :
  (forall c, last_char s = Some c -> drop c = false) ->
  rstrip_chars drop s = s.
Proof.
  induction s as [|c s IH]; simpl; [auto|].
  destruct s as [|c' s'].
  - simpl. intros Hlast. rewrite (Hlast c eq_refl). reflexivity.
  - intros Hlast. rewrite (IH Hlast). reflexivity.
Qed.
End Slashes.

(** X10. [__init__] keeps the base address without its trailing
    slashes: the address given is the one kept followed by slashes
    only, the one kept does not end with a slash, and a client built
    from it keeps it unchanged; the new client holds no session. *)
Theorem base_url_without_trailing_slash base_url api_key timeout_seconds :
  let c := Client.__init__ base_url api_key timeout_seconds in
  (exists slashes,
      base_url = Client._base_url c +:+ slashes
      /\ all_chars Client.is_slash slashes = true)
  /\ last_char (Client._base_url c) <> Some "/"%char
  /\ Client.__init__ (Client._base_url c) api_key timeout_seconds = c
  /\ Client._client c = None.
Proof.
  intros c. simpl. split; [apply rstrip_chars_split|]. split.
  - intros Hlast. apply rstrip_chars_last in Hlast. discriminate.
  - split; [|reflexivity]. unfold c, Client.__init__. f_equal.
    apply rstrip_chars_kept. intros ch. apply rstrip_chars_last.
Qed.

(** X11. The session is created once and re-created after [close]: a
    second [_get_client] returns the session of the first and opens
    nothing; [close] disposes of that session; the next [_get_client]
    opens a session again, built from the same settings. *)
Theorem session_reopened_after_close self :
  let '(s1, e1, session1) := Client._get_client self in
  let '(s2, e2, session2) := Client._get_client s1 in
  let '(s3, e3) := Client.close s2 in
  let '(s4, e4, session4) := Client._get_client s3 in
  Client._client s1 = Some session1
  /\ e2 = [] /\ s2 = s1 /\ session2 = session1
  /\ e3 = [Client.Disposed session1] /\ Client._client s3 = None
  /\ e4 = [Client.Opened (session_for self)]
  /\ session4 = session_for self
  /\ Client._client s4 = Some session4
  /\ (Client._client self = None -> session1 = session4 /\ s4 = s1).
Proof.
  unfold Client._get_client, Client.close.
  destruct (Client._client self) as [session|] eqn:Hself; simpl.
  - repeat (first [rewrite Hself | progress simpl]).
    repeat split; intros; congruence.
  - repeat split.
Qed.

(** ** The report *)

(** X12. The table that is rendered for the results of [run] has one
    row of five cells per profile, in order, starting with the profile
    id.  The Authorized cell reads "Yes" exactly when the job succeeded
    and found the profile logged in, and "No" otherwise, never "-"; a
    failed job shows its error text and no display name, a successful
    one no error. *)
Theorem rendered_rows `{PyRuntime} answers self schedule rs :
  Checker.run answers self schedule = Some rs ->
  (Cli._render_results rs).1 = Cli.columns
  /\ length (Cli._render_results rs).2 = length (Checker._profiles self)
  /\ forall i r,
       rs !! i = Some r ->
       exists label authorized name error,
         (Cli._render_results rs).2 !! i
         = Some [Models.profile_id r; label; authorized; name; error]
         /\ (authorized = "Yes" \/ authorized = "No")
         /\ (authorized = "Yes"
             <-> exists d, Models.details r = Some d
                           /\ Models.authorized d = true)
         /\ (Models.success r = true -> error = "")
         /\ (Models.success r = false ->
             authorized = "No" /\ name = ""
             /\ Models.error r = Some error).
Proof.
  intros Hrun. split; [reflexivity|].
  destruct (run_settled answers self _ _ Hrun) as [Hlen _].
  split; [simpl; rewrite length_map; exact Hlen|].
  intros i r Hr.
  assert (In r rs) as Hin.
  { apply list_elem_of_In. eapply list_elem_of_lookup_2. exact Hr. }
  destruct (run_member answers self _ _ _ Hrun Hin)
    as (j & p & _ & _ & s & f & _ & Heq).
  eexists _, _, _, _. split.
  { simpl. change (map Cli.row rs) with (Cli.row <$> rs).
    rewrite list_lookup_fmap, Hr. reflexivity. }
  subst r. simpl. unfold Checker.attempted.
  destruct (Checker.outcome answers self j p) as [raw error details success]
    eqn:Hout.
  unfold Checker.outcome, Checker.attempted in Hout.
  destruct (answers j _ _) as [response|msg].
  - destruct (Checker.interpret response) as [d|msg];
      injection Hout as <- <- <- <-; simpl.
    + destruct (Models.authorized d) eqn:Hauth; simpl.
      * repeat split; auto; try discriminate. eauto.
      * repeat split; auto; try discriminate.
        intros (d' & [= <-] & Hyes). congruence.
    + destruct msg; simpl; repeat split; auto; try discriminate;
        intros (d' & Hd & _); discriminate.
  - injection Hout as <- <- <- <-; simpl.
    destruct msg; simpl; repeat split; auto; try discriminate;
      intros (d' & Hd & _); discriminate.
Qed.

(** ** The scenario *)

(** X13. Whatever the service, the scenario that is built opens the
    target address and nothing else, has nine steps, and captures the
    three variables [service_authorized], [service_display_name] and
    [profile_serial]; these are all the checker reads, so two
    responses that agree on the captured variables give the same
    [authorized], display name and profile serial. *)
Theorem scenario_captures_what_is_read `{PyRuntime}
    login_script serial_script nickname_script service :
  let scenario :=
    Builder.build_discord_authorization_scenario
      login_script serial_script nickname_script service in
  captured_variables scenario
  = ["service_authorized"; "service_display_name"; "profile_serial"]
  /\ opened_urls scenario = [PStr (Project.target_url service)]
  /\ length (Scenarios.to_payload scenario) = 9
  /\ forall variables variables',
       (forall k, In k (captured_variables scenario) ->
                  dict_lookup k variables = dict_lookup k variables') ->
       exists d d',
         Checker.interpret
           (PDict [("data", PDict [("variables", PDict variables)])])
         = Returned d
         /\ Checker.interpret
              (PDict [("data", PDict [("variables", PDict variables')])])
            = Returned d'
         /\ Models.raw_variables d = variables
         /\ Models.authorized d = Models.authorized d'
         /\ Models.display_name d = Models.display_name d'
         /\ Models.profile_serial d = Models.profile_serial d'.
Proof.
  intros scenario. split; [reflexivity|]. split; [reflexivity|].
  split; [reflexivity|].
  intros variables variables' Hagree.
  eexists _, _. split; [reflexivity|]. split; [reflexivity|]. simpl.
  unfold dict_get.
  rewrite !(Hagree "service_authorized"), !(Hagree "service_display_name"),
    !(Hagree "profile_serial") by (simpl; auto).
  repeat split.
Qed.

(** ** The command as a whole *)

(** X14. When the command gets as far as printing its table, what it
    did to the outside is: open one session, built from the settings
    of the configuration; post the envelopes of the configured
    profiles, each exactly once, and nothing else; dispose of that
    session.  The table has one row per profile. *)
Theorem runner_trace `{PyRuntime}
    answers config scenario schedule table effects :
  Cli._runner answers config scenario schedule = (Some table, effects) ->
  let settings := Project.adspower config in
  let session :=
    session_for
      (Client.__init__ (Project.base_url settings) (Project.api_key settings)
         (Project.timeout_seconds settings)) in
  exists requests,
    effects = Client.Opened session :: requests ++ [Client.Disposed session]
    /\ opened requests = [] /\ disposed requests = []
    /\ Permutation (posted requests)
         (map (fun p => Client.payload (Config.id p)
                          (Scenarios.to_payload scenario))
            (Project.profiles config))
    /\ table.1 = Cli.columns
    /\ length table.2 = length (Project.profiles config).
Proof.
  unfold Cli._runner, Client.__aenter__, Client._get_client. simpl.
  set (fresh := Client.__init__ _ _ _).
  set (client := Client.with_client fresh (Some _)).
  set (checker := Project.from_config client config scenario).
  pose proof (schedule_sessions answers checker schedule) as Hsessions.
  pose proof (schedule_requests answers checker schedule
                (Checker.start checker)) as Hrequests.
  cbv zeta in Hsessions.
  set (w := fold_left _ _ _) in *.
  destruct (Checker.gather (Checker.tasks w)) as [rs|] eqn:Hgather;
    [|discriminate].
  destruct Hsessions as [Hdisposed [(Hg & Hopened & _) | (Hnew & _)]];
    [|discriminate].
  destruct Hrequests as [[Hlen _] Hperm].
  { split; [apply start_inv|]. simpl. rewrite requested_start. reflexivity. }
  rewrite Hg. unfold Client.__aexit__, Client.close. simpl.
  intros [= <- <-]. exists (Checker.effects w).
  split; [reflexivity|]. split; [exact Hopened|]. split; [exact Hdisposed|].
  split.
  - rewrite Hperm. erewrite requested_finished; eauto.
  - split; [reflexivity|]. simpl. rewrite length_map.
    apply length_mapM in Hgather. rewrite <- Hgather. exact Hlen.
Qed.

(** ** When a job counts as a success *)

Lemma interpret_returns `{PyRuntime} raw :
  (exists d, Checker.interpret raw = Returned d)
  <-> exists top,
        raw = PDict top
        /\ (dict_lookup "data" top = None
            \/ exists data, dict_lookup "data" top = Some (PDict data)).
Proof.
  unfold Checker.interpret, Checker._extract_variables, dict_get_default.
  split.
  - intros [d Hd]. destruct raw as [| | | | | |top]; simpl in Hd;
      try discriminate.
    exists top. split; [reflexivity|].
    destruct (dict_lookup "data" top) as [[| | | | | |data]|]; simpl in Hd;
      try discriminate; eauto.
  - intros (top & -> & [Hnone | [data Hdata]]); simpl.
    + rewrite Hnone. simpl.
      destruct (dict_get "variables" top); simpl; eauto.
    + rewrite Hdata. simpl.
      destruct (dict_get "variables" data); simpl; eauto;
        destruct (dict_get "variables" top); simpl; eauto.
Qed.

(** X15. A result that [run] returns is a success exactly when the
    service answered the job's request with a mapping whose [data] is
    absent or a mapping; whether the profile is logged in plays no
    part in it. *)
Theorem success_exactly_when `{PyRuntime} answers self schedule rs :
  Checker.run answers self schedule = Some rs ->
  forall i p r,
    Checker._profiles self !! i = Some p -> rs !! i = Some r ->
    (Models.success r = true
     <-> exists top,
           answers i Client.automation_path
             (Client.payload (Config.id p)
                (Scenarios.to_payload (Checker._scenario self)))
           = Returned (PDict top)
           /\ (dict_lookup "data" top = None
               \/ exists data, dict_lookup "data" top = Some (PDict data))).
Proof.
  intros Hrun i p r Hp Hr.
  destruct (run_settled answers self _ _ Hrun) as [_ Hres].
  destruct (Hres i p Hp) as (r' & Hr' & s & f & _ & ->).
  rewrite Hr in Hr'. injection Hr' as ->. simpl.
  unfold Checker.outcome, Checker.attempted.
  destruct (answers i _ _) as [raw|msg].
  - pose proof (interpret_returns raw) as Hraw.
    destruct (Checker.interpret raw) as [d|msg]; simpl; split.
    + intros _. destruct (proj1 Hraw) as (top & -> & Hdata); eauto.
    + reflexivity.
    + discriminate.
    + intros (top & [= ->] & Hdata).
      destruct (proj2 Hraw) as [d Hd]; [eauto|discriminate].
  - simpl. split; [discriminate|]. intros (top & Htop & _). discriminate.
Qed.

(** ** Results are final *)

Lemma resume_finished `{PyRuntime} answers self w e i r :
  Checker.tasks w !! i = Some (Checker.Finished r) ->
  Checker.tasks (Checker.resume answers self w e) !! i
  = Some (Checker.Finished r).
Proof.
  intros Hi.
  destruct (resume_cases answers self w e)
    as [-> | [(j & p & s & t & Hj & Hs & _ & _ & ->)
             | (j & p & s & request & Hj & _ & ->)]]; simpl in *.
  - exact Hi.
  - destruct (enter_tasks self j p s (Checker.tick (Checker.elapsed e) w))
      as (_ & t' & -> & _).
    simpl. rewrite list_lookup_insert_ne; [exact Hi|].
    intros ->. rewrite Hi in Hj. injection Hj as <-. discriminate.
  - rewrite list_lookup_insert_ne; [exact Hi|].
    intros ->. rewrite Hi in Hj. discriminate.
Qed.

(** X16. Once a job has its result, no further turn of the loop
    changes it: the job is not run again and its result is the one
    [gather] hands back. *)
Theorem finished_is_final `{PyRuntime} answers self schedule more i r :
  Checker.tasks (state answers self schedule) !! i = Some (Checker.Finished r) ->
  Checker.tasks (state answers self (schedule ++ more)) !! i
  = Some (Checker.Finished r)
  /\ forall rs, Checker.run answers self (schedule ++ more) = Some rs ->
                rs !! i = Some r.
Proof.
  unfold state, Checker.run. rewrite fold_left_app.
  set (w := fold_left _ schedule _). clearbody w. intros Hi.
  assert (Checker.tasks
            (fold_left (Checker.resume answers self) more w) !! i
          = Some (Checker.Finished r)) as Hfinal.
  { revert w Hi. induction more as [|e more IH]; intros w Hi; simpl; [exact Hi|].
    apply IH, resume_finished, Hi. }
  split; [exact Hfinal|].
  intros rs Hrun. apply mapM_Some in Hrun.
  destruct (Forall2_lookup_l _ _ _ _ _ Hrun Hfinal) as (r' & Hr' & [= ->]).
  exact Hr'.
Qed.

(** ** Worked instances of the further properties *)

Section WorkedFurther.
#[local] Existing Instance plain_runtime.

Lemma in_flight_bounded_witness :
  Checker.run (failing_at 1) three rough_schedule = Some rough_results
  /\ Checker.permits (state (failing_at 1) three rough_schedule) = 2%Z.
Proof.
  split; [vm_compute; reflexivity|].
  apply (proj2 (proj2 (proj2 (in_flight_bounded (failing_at 1) local_client
                                open_page [alice; bob; carol] 2
                                rough_schedule))) rough_results).
  vm_compute. reflexivity.
Defined.

Lemma one_request_per_profile_witness :
  Checker.run (failing_at 1) three rough_schedule = Some rough_results
  /\ Permutation
       (posted (Checker.effects (state (failing_at 1) three rough_schedule)))
       (map (fun p => Client.payload (Config.id p)
                        (Scenarios.to_payload open_page))
          [alice; bob; carol]).
Proof.
  split; [vm_compute; reflexivity|].
  apply (one_request_per_profile (failing_at 1) three rough_schedule
           rough_results).
  vm_compute. reflexivity.
Defined.

Lemma at_most_one_session_witness :
  posted (Checker.effects (state always_bob three calm_schedule)) <> []
  /\ Client._client (Checker.gateway (state always_bob three calm_schedule))
     <> None.
Proof.
  split; [vm_compute; discriminate|].
  apply (proj2 (proj2 (proj2 (proj2 (at_most_one_session always_bob three
                                       calm_schedule))))).
  vm_compute. discriminate.
Defined.


Lemma raw_response_verbatim_witness :
  Checker.run (failing_at 1) three rough_schedule = Some rough_results
  /\ Models.raw_response
       (Checker.check_result bob 0 3
          (Checker.attempted (Raised "connection refused")))
     = PDict [].
Proof.
  split; [vm_compute; reflexivity|].
  apply (raw_response_verbatim (failing_at 1) three rough_schedule
           rough_results ltac:(vm_compute; reflexivity) 1 bob _
           eq_refl eq_refl).
Defined.

Lemma details_text_is_trimmed_witness :
  Checker.run always_bob three calm_schedule = Some calm_results
  /\ (forall d,
         Checker.details (Checker.attempted (Returned logged_in)) = Some d ->
         Models.success
           (Checker.check_result alice 0 4
              (Checker.attempted (Returned logged_in))) = true).
Proof.
  split; [vm_compute; reflexivity|].
  intros d Hd.
  apply (proj2 (proj2 (proj2 (details_text_is_trimmed always_bob three
                                calm_schedule calm_results
                                ltac:(vm_compute; reflexivity)
                                _ d (or_introl eq_refl) Hd)))).
Defined.

Lemma extract_variables_finds_both_shapes_witness :
  dict_lookup "data" [("data", PDict [("variables", PDict [])]);
                      ("variables", PDict [("a", PInt 1)])]
  = Some (PDict [("variables", PDict [])])
  /\ Checker._extract_variables
       (PDict [("data", PDict [("variables", PDict [])]);
               ("variables", PDict [("a", PInt 1)])])
     = Returned [].
Proof.
  split; [reflexivity|].
  apply (proj1 extract_variables_finds_both_shapes _
           [("variables", PDict [])] []); reflexivity.
Defined.

Lemma session_reopened_after_close_witness :
  Client._client local_client = None
  /\ (Client._get_client local_client).2
     = (Client._get_client
          (Client.close (Client._get_client local_client).1.1).1).2.
Proof.
  split; [reflexivity|].
  pose proof (session_reopened_after_close local_client) as Hcycle.
  vm_compute in Hcycle.
  destruct Hcycle as (_ & _ & _ & _ & _ & _ & _ & _ & _ & Hsame).
  destruct (Hsame eq_refl) as [Hsession _].
  vm_compute. exact Hsession.
Defined.

Lemma rendered_rows_witness :
  Checker.run (failing_at 1) three rough_schedule = Some rough_results
  /\ (Cli._render_results rough_results).2
     = [["k1"; "Alice"; "Yes"; "Bob"; ""];
        ["k2"; ""; "No"; ""; "connection refused"];
        ["k3"; "Carol"; "Yes"; "Bob"; ""]]
  /\ length (Cli._render_results rough_results).2 = 3.
Proof.
  split; [vm_compute; reflexivity|]. split; [vm_compute; reflexivity|].
  apply (proj1 (proj2 (rendered_rows (failing_at 1) three rough_schedule
                         rough_results ltac:(vm_compute; reflexivity)))).
Defined.

Lemma scenario_captures_what_is_read_witness :
  (forall k,
      In k ["service_authorized"; "service_display_name"; "profile_serial"] ->
      dict_lookup k [("service_authorized", PStr "true"); ("noise", PInt 1)]
      = dict_lookup k [("service_authorized", PStr "true")])
  /\ Models.authorized <$>
       (match Checker.interpret
                (PDict [("data",
                         PDict [("variables",
                                 PDict [("service_authorized", PStr "true");
                                        ("noise", PInt 1)])])]) with
        | Returned d => Some d
        | Raised _ => None
        end)
     = Some true.
Proof.
  assert (forall k,
             In k ["service_authorized"; "service_display_name";
                   "profile_serial"] ->
             dict_lookup k [("service_authorized", PStr "true");
                            ("noise", PInt 1)]
             = dict_lookup k [("service_authorized", PStr "true")]) as Hagree.
  { intros k [<- | [<- | [<- | []]]]; reflexivity. }
  split; [exact Hagree|].
  destruct (proj2 (proj2 (proj2 (scenario_captures_what_is_read
                                   (fun _ => "login();") "serial();"
                                   "nickname();"
                                   {| Project.name := "Discord";
                                      Project.target_url :=
                                        "https://discord.com/channels/@me";
                                      Project.selectors :=
                                        {| Project.login_indicators := [];
                                           Project.logout_indicators := [];
                                           Project.display_name := [] |};
                                      Project.login_path_blocklist := [] |})))
              _ _ Hagree) as (d & d' & Hd & Hd' & _ & Hauth & _).
  rewrite Hd. simpl. rewrite Hauth.
  vm_compute in Hd'. injection Hd' as <-. reflexivity.
Defined.

Lemma runner_trace_witness :
  exists table effects,
    Cli._runner (failing_at 1)
      {| Project.adspower :=
           {| Project.base_url := "http://local.adspower.net:50325/";
              Project.api_key := Some "secret";
              Project.timeout_seconds := S754_finite false 15 1 |};
         Project.service :=
           {| Project.name := "Discord";
              Project.target_url := "https://discord.com/channels/@me";
              Project.selectors :=
                {| Project.login_indicators := [];
                   Project.logout_indicators := [];
                   Project.display_name := [] |};
              Project.login_path_blocklist := [] |};
         Project.profiles := [alice; bob];
         Project.concurrency := 1 |}
      open_page [at_ 0 0; at_ 1 0; at_ 0 5; at_ 1 0; at_ 1 5]
    = (Some table, effects)
    /\ length table.2 = 2
    /\ length effects = 4.
Proof.
  eexists _, _. split; [vm_compute; reflexivity|].
  split; [|reflexivity].
  match goal with
  | |- length (snd ?t) = _ =>
      pose proof (runner_trace (failing_at 1)
                    {| Project.adspower :=
                         {| Project.base_url := "http://local.adspower.net:50325/";
                            Project.api_key := Some "secret";
                            Project.timeout_seconds := S754_finite false 15 1 |};
                       Project.service :=
                         {| Project.name := "Discord";
                            Project.target_url := "https://discord.com/channels/@me";
                            Project.selectors :=
                              {| Project.login_indicators := [];
                                 Project.logout_indicators := [];
                                 Project.display_name := [] |};
                            Project.login_path_blocklist := [] |};
                       Project.profiles := [alice; bob];
                       Project.concurrency := 1 |}
                    open_page [at_ 0 0; at_ 1 0; at_ 0 5; at_ 1 0; at_ 1 5]
                    t _ ltac:(vm_compute; reflexivity)) as Htrace
  end.
  destruct Htrace as (requests & _ & _ & _ & _ & _ & Hrows).
  exact Hrows.
Defined.

Lemma success_exactly_when_witness :
  Checker.run (failing_at 1) three rough_schedule = Some rough_results
  /\ Models.success
       (Checker.check_result carol 0 16
          (Checker.attempted (Returned logged_in)))
     = true.
Proof.
  split; [vm_compute; reflexivity|].
  apply (proj2 (success_exactly_when (failing_at 1) three rough_schedule
                  rough_results ltac:(vm_compute; reflexivity) 2 carol _
                  eq_refl eq_refl)).
  eexists. split; [reflexivity|]. right. eexists. reflexivity.
Defined.

Lemma finished_is_final_witness :
  Checker.tasks (state (failing_at 1) three [at_ 1 0; at_ 1 3]) !! 1
  = Some (Checker.Finished
            (Checker.check_result bob 0 3
               (Checker.attempted (Raised "connection refused"))))
  /\ Checker.tasks
       (state (failing_at 1) three ([at_ 1 0; at_ 1 3] ++ [at_ 1 7; at_ 0 1]))
     !! 1
     = Some (Checker.Finished
               (Checker.check_result bob 0 3
                  (Checker.attempted (Raised "connection refused")))).
Proof.
  split; [vm_compute; reflexivity|].
  apply (proj1 (finished_is_final (failing_at 1) three [at_ 1 0; at_ 1 3]
                  [at_ 1 7; at_ 0 1] 1 _ ltac:(vm_compute; reflexivity))).
Defined.

End WorkedFurther.
